(** * Data Profiling Chatbot: a shallow embedding of [utils.py] and [app.py]

    The development has three layers.

    - [Pandas]: the tabular data model (series, frames, column lookup,
      column drop, boolean row selection, shape) that the helpers of
      [utils.py] manipulate.
    - [Library]: the third-party computations the code delegates to
      (quantiles, descriptive statistics, the spreadsheet reader, the
      embedded SQL evaluator, the language model, [str.upper]).  They are
      an interface: every theorem of the development holds for all of its
      implementations.  [Toy] gives one implementation that computes, and
      is used to run the code on concrete inputs.
    - [Py]: a state-and-exception monad over a [world] holding the object
      heap, the Streamlit calls made so far, the calls to external services
      and the Streamlit session state.  The functions of [utils.py] and
      [main] of [app.py] are written in it, statement by statement. *)

From stdpp Require Import gmap strings list pretty.
From Stdlib Require Import QArith Qround.

Open Scope string_scope.
Open Scope nat_scope.

(** ** Python values *)

(** Exceptions raised by library calls.  Both classes derive from
    [Exception]; signals deriving only from [BaseException]
    ([KeyboardInterrupt], [SystemExit]) are asynchronous events of the
    interpreter, not results of a call, and are not modelled. *)
Inductive exn_class :=
| FileNotFoundError
| OtherException (name : string).

Record exn := Exn { exn_cls : exn_class; exn_str : string }.

Definition is_FileNotFoundError (e : exn) : bool :=
  match exn_cls e with
  | FileNotFoundError => true
  | OtherException _ => false
  end.

(** Outcome of a Python call: a value, or a raised exception. *)
Inductive result (A : Type) :=
| Ok (a : A)
| Raise (e : exn).
Arguments Ok {A} a.
Arguments Raise {A} e.

(** [str(n)] for a non-negative Python [int]. *)
Definition str_int (n : nat) : string := pretty n.

(** [sep.join(parts)]. *)
Fixpoint join (sep : string) (parts : list string) : string :=
  match parts with
  | [] => ""
  | [p] => p
  | p :: rest => p +:+ sep +:+ join sep rest
  end.

(** [s.startswith(prefixes)] with a tuple of prefixes. *)
Definition startswith (s : string) (prefixes : list string) : bool :=
  existsb (fun p => String.prefix p s) prefixes.

(** Truthiness of a value that is [None] or a [str]. *)
Definition truthy (s : option string) : bool :=
  match s with
  | Some t => negb (String.eqb t "")
  | None => false
  end.

(** ** The tabular data model *)

Module Pandas.

Inductive dtype := int64 | float64 | bool_ | complex128 | object_ | datetime64.

(** [pd.api.types.is_numeric_dtype]: integers, floats, complex numbers
    and booleans are numeric; everything else is not. *)
Definition numeric (dt : dtype) : bool :=
  match dt with
  | int64 | float64 | bool_ | complex128 => true
  | object_ | datetime64 => false
  end.

(** A column label: a [str], or another object (the [int], [float] or
    [datetime] that a header cell of a spreadsheet is read as) with the
    name of its type and its printed form. *)
Inductive label :=
| LStr (s : string)
| LObj (type_name repr : string).

#[global] Instance label_eq_dec : EqDecision label.
Proof. solve_decision. Defined.

(** [lab == name] for a [str] name: only an equal [str] label is. *)
Definition is_label (name : string) (lab : label) : bool :=
  match lab with
  | LStr s => String.eqb s name
  | LObj _ _ => false
  end.

Section Frames.
Context {cell : Type}.

Record Series := mkSeries { s_dtype : dtype; s_values : list cell }.

(** A frame: the row labels and the labelled columns, left to right. *)
Record DataFrame := mkDataFrame {
  df_index : list nat;
  df_columns : list (label * Series)
}.

(** Every column holds one value per row label. *)
Definition well_formed (d : DataFrame) : Prop :=
  Forall (fun c => length (s_values c.2) = length (df_index d)) (df_columns d).

(** [df.columns] *)
Definition columns (d : DataFrame) : list label := (df_columns d).*1.

(** [name in df.columns] for a [str] name *)
Definition in_columns (name : string) (d : DataFrame) : bool :=
  bool_decide (LStr name ∈ columns d).

(** [df.shape] *)
Definition shape (d : DataFrame) : nat * nat :=
  (length (df_index d), length (df_columns d)).

(** [df.empty]: some axis has length zero. *)
Definition empty (d : DataFrame) : bool :=
  (length (df_index d) =? 0) || (length (df_columns d) =? 0).

(** [df[name]]: the column carrying the label, if any. *)
Fixpoint lookup_column (name : string) (cols : list (label * Series)) : option Series :=
  match cols with
  | [] => None
  | (n, s) :: rest => if is_label name n then Some s else lookup_column name rest
  end.

Definition getitem (d : DataFrame) (name : string) : result Series :=
  match lookup_column name (df_columns d) with
  | Some s => Ok s
  | None => Raise (Exn (OtherException "KeyError") name)
  end.

(** [df.drop(columns=[name])]: a new frame without the columns
    labelled [name]; [KeyError] when there is none. *)
Definition drop_column (d : DataFrame) (name : string) : result DataFrame :=
  if in_columns name d
  then Ok (mkDataFrame (df_index d)
             (filter (fun c => negb (is_label name c.1)) (df_columns d)))
  else Raise (Exn (OtherException "KeyError") name).

(** Selection by a boolean mask: the entries whose flag is set. *)
Fixpoint select {A} (mask : list bool) (xs : list A) : list A :=
  match mask, xs with
  | b :: mask', x :: xs' => if b then x :: select mask' xs' else select mask' xs'
  | _, _ => []
  end.

(** [df[mask]]: a new frame with the selected rows of every column. *)
Definition select_rows (d : DataFrame) (mask : list bool) : DataFrame :=
  mkDataFrame (select mask (df_index d))
    (map (fun c => (c.1, mkSeries (s_dtype c.2) (select mask (s_values c.2))))
         (df_columns d)).

(** [mask1 | mask2], element by element. *)
Fixpoint mask_or (m1 m2 : list bool) : list bool :=
  match m1, m2 with
  | a :: m1', b :: m2' => (a || b) :: mask_or m1' m2'
  | _, _ => []
  end.

(** [df.head()]: the first five rows. *)
Definition head (d : DataFrame) : DataFrame :=
  mkDataFrame (take 5 (df_index d))
    (map (fun c => (c.1, mkSeries (s_dtype c.2) (take 5 (s_values c.2))))
         (df_columns d)).

End Frames.
Arguments Series : clear implicits.
Arguments DataFrame : clear implicits.

End Pandas.
Import Pandas.

(** [sep.join(labels)]: every item must be a [str]; the first that is not
    raises [TypeError]. *)
Fixpoint str_items (i : nat) (labels : list label) : result (list string) :=
  match labels with
  | [] => Ok []
  | LStr s :: rest =>
      match str_items (S i) rest with
      | Ok items => Ok (s :: items)
      | Raise e => Raise e
      end
  | LObj type_name _ :: _ =>
      Raise (Exn (OtherException "TypeError")
               ("sequence item " +:+ str_int i +:+ ": expected str instance, "
                  +:+ type_name +:+ " found"))
  end.

Definition join_labels (sep : string) (labels : list label) : result string :=
  match str_items 0 labels with
  | Ok items => Ok (join sep items)
  | Raise e => Raise e
  end.

(** ** The third-party interface *)

(** What a run of the tool-calling agent can do: finish with a response,
    ask for a tool by name and continue from the tool's observation, or
    fail (the service or the library raises: a network, authentication or
    parsing error).  The language model decides; the executor of [app.py]
    only obeys. *)
Inductive response :=
| RDict (items : gmap string string) (str_ : string)
| RObject (content : option string) (str_ : string).

Inductive agent_step :=
| Finish (r : response)
| ToolCall (tool : string) (tool_input : string) (k : string → agent_step)
| Abort (e : exn).

(** The computations delegated to pandas, numpy, pandasql, langchain and
    the language model.  Calls that may raise return a [result]. *)
Class Library := {
  (** a value stored in a frame, and a numpy floating-point scalar *)
  cell : Type;
  scalar : Type;
  (** the float literals [0.25], [0.75], [1.5] and float arithmetic *)
  lit_0_25 : scalar;
  lit_0_75 : scalar;
  lit_1_5 : scalar;
  sub : scalar → scalar → scalar;
  add : scalar → scalar → scalar;
  mul : scalar → scalar → scalar;
  (** one entry of [series < x] and of [series > x] *)
  cell_lt : cell → scalar → bool;
  cell_gt : cell → scalar → bool;
  (** [series.quantile(q)] *)
  quantile : Series cell → scalar → result scalar;
  (** [series.describe()] and [stats.to_string()] *)
  summary : Type;
  describe : Series cell → result summary;
  to_string : summary → result string;
  (** [pd.read_excel(file_path)] and how [file_path] prints in an f-string *)
  file : Type;
  file_str : file → string;
  read_excel : file → result (DataFrame cell);
  (** [sqldf(query, env)] on the contents of the tables of [env] (a name
      may be bound to [None]); the evaluator returns [None] for a
      statement that yields no rows *)
  sqldf_eval : string → gmap string (option (DataFrame cell))
               → result (option (DataFrame cell));
  (** [str.upper] *)
  upper : string → string;
  (** the system message of the prompt, as a function of the column list *)
  system_prompt : string → string;
  (** [ChatOpenAI(temperature=0, api_key=OPENAI_API_KEY, model=...)]: all
      its arguments are constants of the process *)
  chat_openai : result unit;
  (** the tools, the prompt template, the agent and its executor built for
      a system message *)
  make_agent : string → result unit;
  (** the model's plan for a system message, a chat history and an input *)
  llm : string → list string → string → agent_step;
  (** the observation the executor feeds back for an unknown tool name *)
  invalid_tool : string → list string → string
}.

(** ** The world and the [Py] monad *)

Section Program.
Context `{L : Library}.

Definition loc := nat.

(** Calls to the Streamlit API, in the order they are made.  Frames are
    recorded by content: it is what the page shows. *)
Inductive st_call :=
| st_set_page_config (page_title layout : string)
| st_title (body : string)
| st_sidebar_header (body : string)
| st_sidebar_file_uploader (label : string)
| st_spinner (text : string)
| st_error (body : string)
| st_sidebar_success (body : string)
| st_sidebar_subheader (body : string)
| st_sidebar_dataframe (data : DataFrame cell)
| st_sidebar_write (names : list label)
| st_markdown (body : string)
| st_subheader (body : string)
| st_text_area (label : string)
| st_button (label : string)
| st_warning (body : string)
| st_info (body : string)
| st_code (body language : string)
| st_success (body : string)
| st_dataframe (data : DataFrame cell)
| st_write (body : string).

(** Calls into the libraries that the claims speak of: the environment
    handed to the SQL evaluator (by identity, and by the contents the
    evaluator reads), the payload of an agent run, a quantile request. *)
Inductive ext_call :=
| call_sqldf (query : string) (env : gmap string (option loc))
    (tables : gmap string (option (DataFrame cell)))
| call_agent_invoke (input : string) (chat_history : list string)
| call_quantile (s : Series cell) (q : scalar).

Record world := World {
  w_heap : list (DataFrame cell);
  w_ui : list st_call;
  w_calls : list ext_call;
  w_session : gmap string string
}.

Definition Py (A : Type) : Type := world → result A * world.

#[global] Instance Py_ret : MRet Py := λ A a w, (Ok a, w).
#[global] Instance Py_bind : MBind Py := λ A B f m w,
  match m w with
  | (Ok a, w') => f a w'
  | (Raise e, w') => (Raise e, w')
  end.

Definition lift {A} (r : result A) : Py A := λ w, (r, w).

(** [try: body / except Exception as e: handler e] *)
Definition try_except {A} (body : Py A) (handler : exn → Py A) : Py A := λ w,
  match body w with
  | (Ok a, w') => (Ok a, w')
  | (Raise e, w') => handler e w'
  end.

(** A new frame object. *)
Definition alloc (d : DataFrame cell) : Py loc := λ w,
  (Ok (length (w_heap w)),
   World (w_heap w ++ [d]) (w_ui w) (w_calls w) (w_session w)).

(** The frame behind a reference. *)
Definition deref (l : loc) : Py (DataFrame cell) := λ w,
  match w_heap w !! l with
  | Some d => (Ok d, w)
  | None => (Raise (Exn (OtherException "ReferenceError") "dangling reference"), w)
  end.

Definition st (c : st_call) : Py unit := λ w,
  (Ok tt, World (w_heap w) (w_ui w ++ [c]) (w_calls w) (w_session w)).

Definition ext (c : ext_call) : Py unit := λ w,
  (Ok tt, World (w_heap w) (w_ui w) (w_calls w ++ [c]) (w_session w)).

(** The world [w] after more objects were created, more Streamlit calls
    and more library calls were made. *)
Definition extend (w : world) (objs : list (DataFrame cell))
    (shown : list st_call) (called : list ext_call) : world :=
  World (w_heap w ++ objs) (w_ui w ++ shown) (w_calls w ++ called) (w_session w).

(** *** pandas operations on frame objects *)

Definition pd_read_excel (file_path : file) : Py loc :=
  d ← lift (read_excel file_path); alloc d.

Definition df_contains (name : string) (df : loc) : Py bool :=
  d ← deref df; mret (in_columns name d).

Definition df_drop (df : loc) (name : string) : Py loc :=
  d ← deref df; d' ← lift (drop_column d name); alloc d'.

Definition df_shape (df : loc) : Py (nat * nat) :=
  d ← deref df; mret (shape d).

Definition df_empty (df : loc) : Py bool :=
  d ← deref df; mret (empty d).

Definition df_getitem (df : loc) (name : string) : Py (Series cell) :=
  d ← deref df; lift (getitem d name).

Definition df_select (df : loc) (mask : list bool) : Py loc :=
  d ← deref df; alloc (select_rows d mask).

Definition df_columns_list (df : loc) : Py (list label) :=
  d ← deref df; mret (columns d).

Definition df_head (df : loc) : Py loc :=
  d ← deref df; alloc (head d).

(** [series.quantile(q)] *)
Definition series_quantile (s : Series cell) (q : scalar) : Py scalar :=
  ext (call_quantile s q);; lift (quantile s q).

(** [series < x] and [series > x] *)
Definition series_lt (s : Series cell) (x : scalar) : list bool :=
  map (λ c, cell_lt c x) (s_values s).
Definition series_gt (s : Series cell) (x : scalar) : list bool :=
  map (λ c, cell_gt c x) (s_values s).

(** [sqldf(query, env)]: the evaluator sees the contents of the tables
    of [env]; a result frame is a new object. *)
Definition heap : Py (list (DataFrame cell)) := λ w, (Ok (w_heap w), w).

Definition sqldf (query : string) (env : gmap string (option loc)) : Py (option loc) :=
  h ← heap;
  let tables := (λ v : option loc, l ← v; h !! l) <$> env in
  ext (call_sqldf query env tables);;
  r ← lift (sqldf_eval query tables);
  match r with
  | Some d => l ← alloc d; mret (Some l)
  | None => mret None
  end.

(** ** [utils.py] *)

(** A [df] argument is [None] or a frame object: an [option loc]. *)

Definition load_data (file_path : file) : Py (option loc * option string) :=
  try_except
    (df ← pd_read_excel file_path;
     unnamed ← df_contains "Unnamed: 0" df;
     df ← (if unnamed : bool then df_drop df "Unnamed: 0" else mret df);
     mret (Some df, None))
    (λ e,
       if is_FileNotFoundError e
       then mret (None, Some ("Error: The file '" +:+ file_str file_path +:+ "' was not found."))
       else mret (None, Some ("Error loading Excel file: " +:+ exn_str e))).

Definition get_dataframe_shape (df : option loc) : Py string :=
  match df with
  | Some df =>
      sh ← df_shape df;
      let '(rows, cols) := sh in
      mret ("The DataFrame has " +:+ str_int rows +:+ " rows and "
              +:+ str_int cols +:+ " columns.")
  | None => mret "DataFrame is not loaded."
  end.

Definition get_column_statistics (df : option loc) (column_name : string) : Py string :=
  match df with
  | None => mret "DataFrame is not loaded."
  | Some df =>
      present ← df_contains column_name df;
      if negb present : bool
      then mret ("Column '" +:+ column_name +:+ "' not found in the DataFrame.")
      else
        col ← df_getitem df column_name;
        stats ← lift (describe col);
        lift (to_string stats)
  end.

Definition detect_outliers_iqr (df : option loc) (column_name : string) : Py string :=
  match df with
  | None => mret "DataFrame is not loaded."
  | Some df =>
      present ← df_contains column_name df;
      if negb present : bool
      then mret ("Column '" +:+ column_name +:+ "' not found in the DataFrame.")
      else
        col ← df_getitem df column_name;
        if numeric (s_dtype col) then
          col ← df_getitem df column_name;
          Q1 ← series_quantile col lit_0_25;
          col ← df_getitem df column_name;
          Q3 ← series_quantile col lit_0_75;
          let IQR := sub Q3 Q1 in
          let lower_bound := sub Q1 (mul lit_1_5 IQR) in
          let upper_bound := add Q3 (mul lit_1_5 IQR) in
          below ← (col ← df_getitem df column_name; mret (series_lt col lower_bound));
          above ← (col ← df_getitem df column_name; mret (series_gt col upper_bound));
          outliers ← df_select df (mask_or below above);
          is_empty ← df_empty outliers;
          if negb is_empty : bool then
            sh ← df_shape outliers;
            let '(rows, _) := sh in
            mret (" number of outliers detected in column '" +:+ column_name
                    +:+ "' (IQR method):
" +:+ str_int rows)
          else
            mret ("No outliers detected in column '" +:+ column_name
                    +:+ "' (IQR method).")
        else
          mret ("Outlier detection (IQR method) is only applicable to numerical columns. '"
                  +:+ column_name +:+ "' is not numerical.")
  end.

Definition run_pandasql_query (query : string) (df : option loc)
  : Py (option loc * option string) :=
  try_except
    (result ← sqldf query {[ "df" := df ]};
     mret (result, None))
    (λ e, mret (None, Some ("Error running SQL query: " +:+ exn_str e))).

(** ** [app.py] *)

Record Tool := mkTool {
  tool_name : string;
  tool_func : string → Py string;
  tool_description : string
}.

Definition find_tool (name : string) (tools : list Tool) : option Tool :=
  find (λ t, String.eqb (tool_name t) name) tools.

(** The executor: run the tools the model asks for, feed each observation
    back, stop at the final response.  An exception in a tool, or a
    failure of the service, ends the run. *)
Fixpoint run_agent (tools : list Tool) (a : agent_step) : Py response :=
  match a with
  | Finish r => mret r
  | ToolCall name tool_input k =>
      match find_tool name tools with
      | Some t => observation ← tool_func t tool_input; run_agent tools (k observation)
      | None => run_agent tools (k (invalid_tool name (map tool_name tools)))
      end
  | Abort e => lift (Raise e)
  end.

(** [agent_executor.invoke({"input": input, "chat_history": chat_history})]
    for the agent built from the system message and the tools. *)
Definition agent_executor_invoke (system : string) (tools : list Tool)
    (input : string) (chat_history : list string) : Py response :=
  ext (call_agent_invoke input chat_history);;
  run_agent tools (llm system chat_history input).

(** What the page's widgets and the process environment hold on this run. *)
Record request := mkRequest {
  uploaded_file : option file;
  user_question : string;
  button_clicked : bool;
  environ : gmap string string
}.

(** An optional string inside an f-string. *)
Definition fstr (s : option string) : string :=
  match s with
  | Some t => t
  | None => "None"
  end.

Definition sql_keywords : list string :=
  ["SELECT"; "PRAGMA"; "CREATE"; "INSERT"; "UPDATE"; "DELETE"; "DROP"; "ALTER"].

(** Lines 186-191 of [main]: the text of the agent's response. *)
Definition final_content (r : response) : string :=
  match r with
  | RDict items str_ =>
      match items !! "output" with
      | Some output => output
      | None => str_
      end
  | RObject (Some content) _ => content
  | RObject None str_ => str_
  end.

(** Lines 193-216 of [main]: what is done with the text. *)
Definition dispatch (final_response_content : string) (df : loc) : Py unit :=
  if String.eqb final_response_content "Please specify a column to detect outliers in." then
    st (st_warning ("⚠️ " +:+ final_response_content))
  else if String.eqb final_response_content
    "Cannot process numerical statistics for categorical columns. Please specify a numerical column." then
    st (st_warning ("⚠️ " +:+ final_response_content))
  else if startswith (upper final_response_content) sql_keywords then
    let generated_sql := final_response_content in
    st (st_info "Generated SQL Query:");;
    st (st_code generated_sql "sql");;
    st (st_spinner "🚀 Running SQL query and fetching results...");;
    r ← run_pandasql_query generated_sql (Some df);
    let '(result, sql_error_message) := r in
    if truthy sql_error_message then
      st (st_error ("❌ " +:+ fstr sql_error_message))
    else
      match result with
      | Some res =>
          st (st_success "✅ Done!");;
          shown ← deref res;
          st (st_dataframe shown)
      | None => mret tt
      end
  else
    st (st_write final_response_content).

Definition python_tools (df : loc) : list Tool :=
  [ mkTool "get_dataframe_shape" (λ s, get_dataframe_shape (Some df))
      "Get the number of rows and columns in the DataFrame. Input is ignored.";
    mkTool "get_column_statistics" (λ column_name, get_column_statistics (Some df) column_name)
      "Get descriptive statistics for a specified column.";
    mkTool "detect_outliers_iqr" (λ column_name, detect_outliers_iqr (Some df) column_name)
      "Detect outliers in a numerical column using the Interquartile Range (IQR) method." ].

(** Lines 79-219 of [main]: the button and what it triggers. *)
Definition answer (req : request) (df : loc) : Py unit :=
  st (st_button "🔍 Get Answer");;
  if button_clicked req then
    if negb (String.eqb (user_question req) "") then
      if negb (truthy (environ req !! "OPENAI_API_KEY")) then
        st (st_warning
              "⚠️ Please set your OpenAI API key in the `.env` file or as an environment variable.")
      else
        st (st_spinner "🧠 Generating response...");;
        lift chat_openai;;
        names ← df_columns_list df;
        columns_str ← lift (join_labels ", " names);
        lift (make_agent (system_prompt columns_str));;
        response ← agent_executor_invoke (system_prompt columns_str) (python_tools df)
                     (user_question req) [];
        st (st_markdown "### ✨ Analysis Result");;
        dispatch (final_content response) df
    else
      st (st_warning "⚠️ Please enter a question.")
  else
    mret tt.

Definition main (req : request) : Py unit :=
  st (st_set_page_config "Data Profiling Chatbot" "wide");;
  st (st_title "📊 Data Profiling Chatbot with AI");;
  st (st_sidebar_header "Upload Data");;
  st (st_sidebar_file_uploader "Upload your Excel file");;
  loaded ← match uploaded_file req with
            | Some f => st (st_spinner "⏳ Connecting to database...");; load_data f
            | None => mret (None, None)
            end;
  let '(df, error_message) := loaded in
  if truthy error_message then
    st (st_error ("❌ " +:+ fstr error_message))
  else
    match df with
    | Some df =>
        st (st_sidebar_success "✅ Successfully connected to database.");;
        st (st_sidebar_subheader "📊 Data Overview (First 5 Rows)");;
        first_rows ← df_head df;
        shown ← deref first_rows;
        st (st_sidebar_dataframe shown);;
        st (st_sidebar_subheader "Column Names:");;
        names ← df_columns_list df;
        st (st_sidebar_write names);;
        st (st_markdown "--- ");;
        st (st_subheader "💬 Ask a Question about your Data");;
        st (st_text_area
              "Enter your question here (e.g., 'How many rows are there?', 'What is the mean of the column X?', 'Are there any outliers in the X column?'):");;
        answer req df
    | None =>
        st (st_info "⬆️ Please upload an Excel file to get started.")
    end.

(** ** Vocabulary of the claims *)

(** A call is pure in [w]: every frame of the heap holds after the call
    what it held before, and the same call made again has the same
    outcome. *)
Definition pure_call (h : Py string) (w : world) : Prop :=
  (∀ (l : loc) (d : DataFrame cell),
      w_heap w !! l = Some d → w_heap (h w).2 !! l = Some d)
  ∧ (h (h w).2).1 = (h w).1.

(** The frame [d] without the columns labelled "Unnamed: 0". *)
Definition without_unnamed (d : DataFrame cell) : DataFrame cell :=
  mkDataFrame (df_index d) (filter (λ c, c.1 ≠ LStr "Unnamed: 0") (df_columns d)).

(** Of the two components of a returned pair, exactly one is [None]. *)
Definition exactly_one_None {A B} (p : option A * option B) : Prop :=
  (p.1 = None ∧ p.2 ≠ None) ∨ (p.1 ≠ None ∧ p.2 = None).

(** A library call that is a quantile request. *)
Definition quantile_call (c : ext_call) : Prop :=
  match c with
  | call_quantile _ _ => True
  | _ => False
  end.

(** What [h] does with a frame is fixed by the frame's content [d]: the
    outcome, the objects created and the library calls (quantile requests
    only) are the same wherever the frame lives and whatever else the world
    holds; nothing is shown. *)
Definition frame_effect {A} (d : DataFrame cell) (h : loc → Py A) : Prop :=
  ∃ r objs called,
    Forall quantile_call called
    ∧ ∀ (w : world) (l : loc),
        w_heap w !! l = Some d → h l w = (r, extend w objs [] called).

(** The three kinds of final response text, and the classification in the
    specification's words: a fixed sentence, else a text whose upper-case
    form starts with an SQL keyword, else free text. *)
Inductive response_kind := FixedHelperResponse | StructuredQuery | FreeText.

Definition spec_classify (text : string) : response_kind :=
  if bool_decide (text = "Please specify a column to detect outliers in."
                  ∨ text = "Cannot process numerical statistics for categorical columns. Please specify a numerical column.")
  then FixedHelperResponse
  else if startswith (upper text) sql_keywords then StructuredQuery
  else FreeText.

(** A library call the handler may make for the request [req] while the
    loaded frame is the object [l] with content [d]: a query evaluated in
    the environment [{"df": l}], where the evaluator reads [d] and nothing
    else; an agent run on the question with an empty chat history; a
    quantile request. *)
Definition permitted_call (req : request) (l : loc) (d : DataFrame cell)
    (c : ext_call) : Prop :=
  match c with
  | call_sqldf _ env tables => env = {[ "df" := Some l ]} ∧ tables = {[ "df" := Some d ]}
  | call_agent_invoke input chat_history =>
      input = user_question req ∧ chat_history = []
  | call_quantile _ _ => True
  end.

(** What [h] does with the loaded frame is fixed by the request and the
    frame's content [d]: the outcome, the objects created and the Streamlit
    calls are the same wherever the frame lives and whatever else the world
    holds, and every library call is permitted. *)
Definition page_effect {A} (req : request) (d : DataFrame cell) (h : loc → Py A) : Prop :=
  ∃ r objs shown,
    ∀ (w : world) (l : loc),
      w_heap w !! l = Some d →
      ∃ called, h l w = (r, extend w objs shown called)
                ∧ Forall (permitted_call req l d) called.

End Program.

(** ** An implementation of the interface that computes

    Exact rational arithmetic with a not-a-number value, a quantile by
    linear interpolation between order statistics, a three-file store and a
    scripted model.  It serves to run the code on concrete inputs. *)

Module Toy.

Inductive value := VNum (q : Q) | VStr (s : string) | VNaN.

(** [None] is not-a-number. *)
Definition number := option Q.

Definition arith (f : Q → Q → Q) (a b : number) : number :=
  match a, b with
  | Some x, Some y => Some (Qred (f x y))
  | _, _ => None
  end.

Definition value_lt (v : value) (x : number) : bool :=
  match v, x with
  | VNum q, Some b => negb (Qle_bool b q)
  | _, _ => false
  end.

Definition value_gt (v : value) (x : number) : bool :=
  match v, x with
  | VNum q, Some b => negb (Qle_bool q b)
  | _, _ => false
  end.

Definition numbers (vs : list value) : list Q :=
  omap (λ v, match v with VNum q => Some q | _ => None end) vs.

Fixpoint insert_sorted (x : Q) (l : list Q) : list Q :=
  match l with
  | [] => [x]
  | y :: l' => if Qle_bool x y then x :: l else y :: insert_sorted x l'
  end.

Definition sort (l : list Q) : list Q := foldr insert_sorted [] l.

Definition interpolate (sorted : list Q) (q : Q) : number :=
  let pos := (inject_Z (Z.of_nat (length sorted - 1)) * q)%Q in
  let lo := Z.to_nat (Qfloor pos) in
  let frac := (pos - inject_Z (Qfloor pos))%Q in
  match sorted !! lo, sorted !! S lo with
  | Some a, Some b => Some (Qred (a + (b - a) * frac))
  | Some a, None => Some (Qred a)
  | None, _ => None
  end.

Definition type_error (msg : string) : exn := Exn (OtherException "TypeError") msg.

Definition linear_quantile (s : Series value) (q : number) : result number :=
  match s_dtype s, q with
  | bool_, _ => Raise (type_error "numpy boolean subtract is not supported")
  | _, Some q => Ok (interpolate (sort (numbers (s_values s))) q)
  | _, None => Raise (Exn (OtherException "ValueError") "percentiles should all be in the interval [0, 1]")
  end.

Definition count_describe (s : Series value) : result nat :=
  Ok (length (List.filter (λ v, match v with VNaN => false | _ => true end) (s_values s))).

Definition count_to_string (count : nat) : result string :=
  Ok ("count    " +:+ pretty count).

Definition sales : DataFrame value :=
  mkDataFrame [0; 1; 2; 3; 4; 5]
    [ (LStr "Unnamed: 0", mkSeries int64 [VNum 0; VNum 1; VNum 2; VNum 3; VNum 4; VNum 5]);
      (LStr "price", mkSeries float64 [VNum 10; VNum 12; VNum 11; VNum 13; VNum 100; VNum 12]);
      (LStr "city", mkSeries object_ [VStr "Rabat"; VStr "Fes"; VStr "Rabat"; VStr "Safi"; VStr "Fes"; VStr "Oujda"]) ].

Definition steady : DataFrame value :=
  mkDataFrame [0; 1; 2; 3]
    [ (LStr "price", mkSeries float64 [VNum 10; VNum 12; VNum 11; VNum 13]);
      (LStr "paid", mkSeries object_ [VStr "yes"; VStr "no"; VStr "yes"; VStr "yes"]) ].

Definition store_read_excel (path : string) : result (DataFrame value) :=
  if String.eqb path "sales.xlsx" then Ok sales
  else if String.eqb path "steady.xlsx" then Ok steady
  else if String.eqb path "notes.txt" then
    Raise (Exn (OtherException "ValueError") "Excel file format cannot be determined")
  else Raise (Exn FileNotFoundError ("No such file or directory: " +:+ path)).

(** A query evaluator knowing one query, two statements that yield no
    rows, and errors. *)
Definition toy_sqldf_eval (query : string) (env : gmap string (option (DataFrame value)))
  : result (option (DataFrame value)) :=
  if String.eqb query "SELECT * FROM df" then
    match env !! "df" with
    | Some (Some d) => Ok (Some d)
    | _ => Raise (Exn (OtherException "PandaSQLException") "no such table: df")
    end
  else if String.eqb query "CREATE TABLE t (a INTEGER)" then Ok None
  else if String.eqb query "delete from df" then Ok None
  else Raise (Exn (OtherException "PandaSQLException") "syntax error").

Definition upper_ascii (a : Ascii.ascii) : Ascii.ascii :=
  let n := Ascii.nat_of_ascii a in
  if (97 <=? n) && (n <=? 122) then Ascii.ascii_of_nat (n - 32) else a.

Fixpoint ascii_upper (s : string) : string :=
  match s with
  | EmptyString => EmptyString
  | String a s' => String (upper_ascii a) (ascii_upper s')
  end.

Definition short_prompt (columns_str : string) : string :=
  "The table name is 'df' and it has the following columns: " +:+ columns_str +:+ ".".

Definition output (text : string) : agent_step :=
  Finish (RDict {[ "output" := text ]} "").

(** A scripted model: it asks for the outlier tool, for the shape tool,
    answers with a query, or falls back to a fixed sentence. *)
Definition scripted_llm (system : string) (chat_history : list string) (input : string) : agent_step :=
  if String.eqb input "Are there outliers in price?" then
    ToolCall "detect_outliers_iqr" "price" output
  else if String.eqb input "What is the shape?" then
    ToolCall "get_dataframe_shape" "" output
  else if String.eqb input "Show everything" then
    output "SELECT * FROM df"
  else if String.eqb input "Empty the table" then
    output "delete from df"
  else output "Please specify a column to detect outliers in.".

Definition toy_invalid_tool (name : string) (names : list string) : string :=
  name +:+ " is not a valid tool, try one of [" +:+ join ", " names +:+ "].".

#[global] Instance lib : Library := {|
  cell := value;
  scalar := number;
  lit_0_25 := Some (1 # 4)%Q;
  lit_0_75 := Some (3 # 4)%Q;
  lit_1_5 := Some (3 # 2)%Q;
  sub := arith Qminus;
  add := arith Qplus;
  mul := arith Qmult;
  cell_lt := value_lt;
  cell_gt := value_gt;
  quantile := linear_quantile;
  summary := nat;
  describe := count_describe;
  to_string := count_to_string;
  file := string;
  file_str := id;
  read_excel := store_read_excel;
  sqldf_eval := toy_sqldf_eval;
  upper := ascii_upper;
  system_prompt := short_prompt;
  chat_openai := Ok tt;
  make_agent := λ _, Ok tt;
  llm := scripted_llm;
  invalid_tool := toy_invalid_tool
|}.

(** A fresh page: nothing allocated, shown, called or stored. *)
Definition fresh : world := World [] [] [] ∅.

(** Worlds whose only object is a frame, at location 0. *)
Definition with_sales : world := World [sales] [] [] ∅.
Definition with_steady : world := World [steady] [] [] ∅.

(** A world after earlier requests: objects, page content, calls and a
    session entry are around. *)
Definition busy : world :=
  World [steady; sales] [st_write "earlier answer"]
    [call_agent_invoke "earlier question" []] {[ "visits" := "3" ]}.

(** The button pressed on a question, with [sales.xlsx] uploaded and the
    API key set. *)
Definition ask (question : string) : request :=
  mkRequest (Some "sales.xlsx") question true {[ "OPENAI_API_KEY" := "sk-test" ]}.

End Toy.

(** ** Vocabulary of the page *)

Section Pages.
Context `{L : Library}.

(** The calls every run of [main] starts with (lines 50-55). *)
Definition page_header : list st_call :=
  [st_set_page_config "Data Profiling Chatbot" "wide";
   st_title "📊 Data Profiling Chatbot with AI";
   st_sidebar_header "Upload Data";
   st_sidebar_file_uploader "Upload your Excel file"].

(** The calls between a successful load of the frame [d] and the button
    (lines 60-77). *)
Definition overview (d : DataFrame cell) : list st_call :=
  [st_spinner "⏳ Connecting to database...";
   st_sidebar_success "✅ Successfully connected to database.";
   st_sidebar_subheader "📊 Data Overview (First 5 Rows)";
   st_sidebar_dataframe (head d);
   st_sidebar_subheader "Column Names:";
   st_sidebar_write (columns d);
   st_markdown "--- ";
   st_subheader "💬 Ask a Question about your Data";
   st_text_area
     "Enter your question here (e.g., 'How many rows are there?', 'What is the mean of the column X?', 'Are there any outliers in the X column?'):"].

(** The message [load_data] returns for the exception [e]. *)
Definition load_error (f : file) (e : exn) : string :=
  if is_FileNotFoundError e
  then "Error: The file '" +:+ file_str f +:+ "' was not found."
  else "Error loading Excel file: " +:+ exn_str e.

(** The request passes the tests of lines 59-82: a file is uploaded and
    loads, the button is pressed, the question is not empty and the API key
    is set to a non-empty value. *)
Definition answering (req : request) : bool :=
  match uploaded_file req with
  | Some f =>
      match read_excel f with
      | Ok _ =>
          button_clicked req
          && negb (String.eqb (user_question req) "")
          && truthy (environ req !! "OPENAI_API_KEY")
      | Raise _ => false
      end
  | None => false
  end.

(** Lines 86-179 on the loaded frame [d]: the chat model, the column
    names joined into the system message, the agent built for it.  The
    outcome is the system message, or the first exception raised. *)
Definition prepare (d : DataFrame cell) : result string :=
  match chat_openai with
  | Raise e => Raise e
  | Ok _ =>
      match join_labels ", " (columns d) with
      | Raise e => Raise e
      | Ok columns_str =>
          match make_agent (system_prompt columns_str) with
          | Raise e => Raise e
          | Ok _ => Ok (system_prompt columns_str)
          end
      end
  end.

(** The model's plan for the request under a system message. *)
Definition plan (req : request) (system : string) : agent_step :=
  llm system [] (user_question req).

(** The request reaches the agent run: it passes the tests of [answering]
    and lines 86-179 raise nothing on the loaded frame. *)
Definition reaches_agent (req : request) : bool :=
  answering req
  && match uploaded_file req with
     | Some f =>
         match read_excel f with
         | Ok d =>
             match prepare (without_unnamed d) with
             | Ok _ => true
             | Raise _ => false
             end
         | Raise _ => false
         end
     | None => false
     end.

(** A library call that is an agent run. *)
Definition agent_call (c : ext_call) : Prop :=
  match c with
  | call_agent_invoke _ _ => True
  | _ => False
  end.


End Pages.

(** ** The same implementation with a quantile that fails *)

Module Flaky.

Definition no_quantile (s : Series Toy.value) (q : Toy.number) : result Toy.number :=
  Raise (Toy.type_error "cannot compute the quantile").

Definition lib : Library := {|
  cell := Toy.value;
  scalar := Toy.number;
  lit_0_25 := Some (1 # 4)%Q;
  lit_0_75 := Some (3 # 4)%Q;
  lit_1_5 := Some (3 # 2)%Q;
  sub := Toy.arith Qminus;
  add := Toy.arith Qplus;
  mul := Toy.arith Qmult;
  cell_lt := Toy.value_lt;
  cell_gt := Toy.value_gt;
  quantile := no_quantile;
  summary := nat;
  describe := Toy.count_describe;
  to_string := Toy.count_to_string;
  file := string;
  file_str := id;
  read_excel := Toy.store_read_excel;
  sqldf_eval := Toy.toy_sqldf_eval;
  upper := Toy.ascii_upper;
  system_prompt := Toy.short_prompt;
  chat_openai := Ok tt;
  make_agent := λ _, Ok tt;
  llm := Toy.scripted_llm;
  invalid_tool := Toy.toy_invalid_tool
|}.

Definition fresh : world (L:=lib) := World [] [] [] ∅.

Definition with_sales : world (L:=lib) := World (L:=lib) [Toy.sales] [] [] ∅.

Definition ask (question : string) : request (L:=lib) :=
  mkRequest (L:=lib) (Some "sales.xlsx") question true {[ "OPENAI_API_KEY" := "sk-test" ]}.

End Flaky.

(** ** Requests and frames for the runs *)

Module Cases.

(** Nothing uploaded. *)
Definition no_upload : request (L:=Toy.lib) :=
  mkRequest (L:=Toy.lib) None "How many rows are there?" true
    {[ "OPENAI_API_KEY" := "sk-test" ]}.

(** A file that is not there. *)
Definition absent : request (L:=Toy.lib) :=
  mkRequest (L:=Toy.lib) (Some "absent.xlsx") "How many rows are there?" true
    {[ "OPENAI_API_KEY" := "sk-test" ]}.

(** [sales.xlsx] uploaded, the button not pressed. *)
Definition idle : request (L:=Toy.lib) :=
  mkRequest (L:=Toy.lib) (Some "sales.xlsx") "How many rows are there?" false
    {[ "OPENAI_API_KEY" := "sk-test" ]}.

(** The button pressed on an empty question, without an API key. *)
Definition silent : request (L:=Toy.lib) :=
  mkRequest (L:=Toy.lib) (Some "sales.xlsx") "" true ∅.

(** A table with a numeric column and no rows. *)
Definition blank : DataFrame Toy.value :=
  mkDataFrame [] [(LStr "price", mkSeries float64 [])].

Definition with_blank : world (L:=Toy.lib) := World (L:=Toy.lib) [blank] [] [] ∅.



End Cases.

(** ** The same implementation reading a spreadsheet with numeric headers *)

Module Mixed.

(** A sheet whose header row is: city, 2023, 2024.  The two numbers are
    read as [int] labels. *)
Definition years : DataFrame Toy.value :=
  mkDataFrame [0; 1]
    [ (LStr "city", mkSeries object_ [Toy.VStr "Rabat"; Toy.VStr "Fes"]);
      (LObj "int" "2023", mkSeries int64 [Toy.VNum 10; Toy.VNum 12]);
      (LObj "int" "2024", mkSeries int64 [Toy.VNum 11; Toy.VNum 13]) ].

Definition years_read_excel (path : string) : result (DataFrame Toy.value) :=
  if String.eqb path "years.xlsx" then Ok years else Toy.store_read_excel path.

Definition lib : Library := {|
  cell := Toy.value;
  scalar := Toy.number;
  lit_0_25 := Some (1 # 4)%Q;
  lit_0_75 := Some (3 # 4)%Q;
  lit_1_5 := Some (3 # 2)%Q;
  sub := Toy.arith Qminus;
  add := Toy.arith Qplus;
  mul := Toy.arith Qmult;
  cell_lt := Toy.value_lt;
  cell_gt := Toy.value_gt;
  quantile := Toy.linear_quantile;
  summary := nat;
  describe := Toy.count_describe;
  to_string := Toy.count_to_string;
  file := string;
  file_str := id;
  read_excel := years_read_excel;
  sqldf_eval := Toy.toy_sqldf_eval;
  upper := Toy.ascii_upper;
  system_prompt := Toy.short_prompt;
  chat_openai := Ok tt;
  make_agent := λ _, Ok tt;
  llm := Toy.scripted_llm;
  invalid_tool := Toy.toy_invalid_tool
|}.

Definition fresh : world (L:=lib) := World [] [] [] ∅.

Definition ask (question : string) : request (L:=lib) :=
  mkRequest (L:=lib) (Some "years.xlsx") question true {[ "OPENAI_API_KEY" := "sk-test" ]}.

End Mixed.

(** * Verification *)

Section Running.
Context `{L : Library}.

(** ** Running monadic code *)

Lemma bind_run {A B} (m : Py A) (f : A → Py B) (w : world) :
  (m ≫= f) w = match m w with
               | (Ok a, w') => f a w'
               | (Raise e, w') => (Raise e, w')
               end.
Proof. reflexivity. Qed.

Lemma deref_run (l : loc) (d : DataFrame cell) (w : world) :
  w_heap w !! l = Some d → deref l w = (Ok d, w).
Proof. intros H. unfold deref. by rewrite H. Qed.

Lemma extend_nil (w : world) : extend w [] [] [] = w.
Proof. destruct w. unfold extend. cbn. by rewrite !app_nil_r. Qed.

Lemma extend_extend (w : world) g u c g' u' c' :
  extend (extend w g u c) g' u' c' = extend w (g ++ g') (u ++ u') (c ++ c').
Proof. unfold extend. cbn. by rewrite !app_assoc. Qed.

Lemma alloc_run (d : DataFrame cell) (w : world) :
  alloc d w = (Ok (length (w_heap w)), extend w [d] [] []).
Proof. unfold alloc, extend. by rewrite !app_nil_r. Qed.

Lemma st_run (c : st_call) (w : world) : st c w = (Ok tt, extend w [] [c] []).
Proof. unfold st, extend. by rewrite !app_nil_r. Qed.

Lemma ext_run (c : ext_call) (w : world) : ext c w = (Ok tt, extend w [] [] [c]).
Proof. unfold ext, extend. by rewrite !app_nil_r. Qed.

Lemma extend_lookup (w : world) g u c (l : loc) (d : DataFrame cell) :
  w_heap w !! l = Some d → w_heap (extend w g u c) !! l = Some d.
Proof. intros H. cbn. by apply lookup_app_l_Some. Qed.

Lemma extend_lookup_new (w : world) g u c (k : nat) :
  w_heap (extend w g u c) !! (length (w_heap w) + k) = g !! k.
Proof. cbn. rewrite lookup_app_r by lia. f_equal. lia. Qed.



Lemma mask_or_map {A} (f g : A → bool) (xs : list A) :
  mask_or (map f xs) (map g xs) = map (λ v, f v || g v) xs.
Proof. induction xs as [|x xs IH]; [done|]. cbn. by rewrite IH. Qed.

Lemma is_label_true (name : string) (lab : label) :
  is_label name lab = true ↔ lab = LStr name.
Proof.
  destruct lab as [s|ty r]; cbn; [|by split].
  rewrite String.eqb_eq. split; congruence.
Qed.

Lemma lookup_column_elem (name : string) (cols : list (label * Series cell)) (s : Series cell) :
  lookup_column name cols = Some s → (LStr name, s) ∈ cols.
Proof.
  induction cols as [|[n c] cols IH]; [done|]. cbn.
  destruct (is_label name n) eqn:Hn.
  - apply is_label_true in Hn as ->. intros [= ->]. left.
  - intros H. right. auto.
Qed.

Lemma lookup_column_present (name : string) (d : DataFrame cell) (s : Series cell) :
  lookup_column name (df_columns d) = Some s → in_columns name d = true.
Proof.
  intros H. apply bool_decide_eq_true. unfold columns.
  apply list_elem_of_fmap. exists (LStr name, s). split; [done|]. by apply lookup_column_elem.
Qed.

Lemma present_lookup_column (name : string) (d : DataFrame cell) :
  LStr name ∈ columns d → ∃ s, lookup_column name (df_columns d) = Some s.
Proof.
  unfold columns. induction (df_columns d) as [|[n c] cols IH]; cbn.
  - intros H. by apply elem_of_nil in H.
  - intros H. destruct (is_label name n) eqn:Hn; [eauto|].
    apply elem_of_cons in H as [<-|H]; [|auto].
    cbn in Hn. by rewrite String.eqb_refl in Hn.
Qed.


Lemma bind_ok {A B} (m : Py A) (f : A → Py B) (w w' : world) (a : A) :
  m w = (Ok a, w') → (m ≫= f) w = f a w'.
Proof. intros H. by rewrite bind_run, H. Qed.

Lemma bind_raise {A B} (m : Py A) (f : A → Py B) (w w' : world) (e : exn) :
  m w = (Raise e, w') → (m ≫= f) w = (Raise e, w').
Proof. intros H. by rewrite bind_run, H. Qed.

Lemma ret_run {A} (a : A) (w : world) : (mret a : Py A) w = (Ok a, w).
Proof. reflexivity. Qed.

Lemma lift_run {A} (r : result A) (w : world) : lift r w = (r, w).
Proof. reflexivity. Qed.

Lemma df_getitem_run (w : world) (l : loc) (d : DataFrame cell) (name : string) (s : Series cell) :
  w_heap w !! l = Some d → lookup_column name (df_columns d) = Some s →
  df_getitem l name w = (Ok s, w).
Proof.
  intros Hl Hs. unfold df_getitem, getitem, lift. rewrite bind_run, (deref_run _ _ _ Hl).
  by rewrite Hs.
Qed.

Lemma df_contains_run (w : world) (l : loc) (d : DataFrame cell) (name : string) :
  w_heap w !! l = Some d → df_contains name l w = (Ok (in_columns name d), w).
Proof. intros Hl. unfold df_contains. by rewrite bind_run, (deref_run _ _ _ Hl). Qed.

Lemma series_quantile_run (w : world) (s : Series cell) (q : scalar) :
  series_quantile s q w = (quantile s q, extend w [] [] [call_quantile s q]).
Proof. unfold series_quantile. rewrite bind_run, ext_run. reflexivity. Qed.

Lemma df_select_run (w : world) (l : loc) (d : DataFrame cell) (mask : list bool) :
  w_heap w !! l = Some d →
  df_select l mask w = (Ok (length (w_heap w)), extend w [select_rows d mask] [] []).
Proof. intros Hl. unfold df_select. by rewrite bind_run, (deref_run _ _ _ Hl), alloc_run. Qed.

Lemma df_empty_run (w : world) (l : loc) (d : DataFrame cell) :
  w_heap w !! l = Some d → df_empty l w = (Ok (empty d), w).
Proof. intros Hl. unfold df_empty. by rewrite bind_run, (deref_run _ _ _ Hl). Qed.

Lemma df_shape_run (w : world) (l : loc) (d : DataFrame cell) :
  w_heap w !! l = Some d → df_shape l w = (Ok (shape d), w).
Proof. intros Hl. unfold df_shape. by rewrite bind_run, (deref_run _ _ _ Hl). Qed.

Lemma extend_lookup_first (w : world) (d : DataFrame cell) g u c :
  w_heap (extend w (d :: g) u c) !! length (w_heap w) = Some d.
Proof. cbn. by rewrite lookup_app_r, Nat.sub_diag by lia. Qed.

End Running.


(** Heap lookups in a world grown by [extend]. *)
Ltac py_heap :=
  first [ eassumption
        | apply extend_lookup_first
        | apply extend_lookup; py_heap ].

(** The outcome of the first statement of a block. *)
Ltac py_run :=
  first [ apply st_run
        | apply ext_run
        | apply alloc_run
        | eapply deref_run; py_heap
        | eapply df_contains_run; py_heap
        | eapply df_getitem_run; [py_heap | eassumption]
        | eapply df_select_run; py_heap
        | eapply df_empty_run; py_heap
        | eapply df_shape_run; py_heap
        | apply ret_run ].

(** Execute the first statement of a block and continue with the rest. *)
Ltac py_step := erewrite bind_ok by py_run; cbv beta.

(** ** The helpers of [utils.py] *)

Section Helpers.
Context `{L : Library}.

Lemma extend_heap_nil (w : world) u c : w_heap (extend w [] u c) = w_heap w.
Proof. cbn. apply app_nil_r. Qed.

Lemma deref_dangling (l : loc) (w : world) :
  w_heap w !! l = None →
  deref l w = (Raise (Exn (OtherException "ReferenceError") "dangling reference"), w).
Proof. intros H. unfold deref. by rewrite H. Qed.

Lemma get_dataframe_shape_run (w : world) (l : loc) (d : DataFrame cell) :
  w_heap w !! l = Some d →
  get_dataframe_shape (Some l) w =
    (Ok ("The DataFrame has " +:+ str_int (length (df_index d)) +:+ " rows and "
           +:+ str_int (length (df_columns d)) +:+ " columns."), w).
Proof. intros H. unfold get_dataframe_shape. py_step. reflexivity. Qed.

Lemma get_column_statistics_missing (w : world) (l : loc) (d : DataFrame cell) (name : string) :
  w_heap w !! l = Some d → in_columns name d = false →
  get_column_statistics (Some l) name w =
    (Ok ("Column '" +:+ name +:+ "' not found in the DataFrame."), w).
Proof. intros Hl Hn. unfold get_column_statistics. py_step. by rewrite Hn. Qed.

Lemma get_column_statistics_run (w : world) (l : loc) (d : DataFrame cell)
    (name : string) (col : Series cell) :
  w_heap w !! l = Some d → lookup_column name (df_columns d) = Some col →
  get_column_statistics (Some l) name w =
    (match describe col with
     | Ok stats => to_string stats
     | Raise e => Raise e
     end, w).
Proof.
  intros Hl Hcol. unfold get_column_statistics.
  py_step. rewrite (lookup_column_present _ _ _ Hcol). cbn [negb].
  py_step. rewrite bind_run, lift_run. by destruct (describe col).
Qed.

Lemma detect_outliers_iqr_missing (w : world) (l : loc) (d : DataFrame cell) (name : string) :
  w_heap w !! l = Some d → in_columns name d = false →
  detect_outliers_iqr (Some l) name w =
    (Ok ("Column '" +:+ name +:+ "' not found in the DataFrame."), w).
Proof. intros Hl Hn. unfold detect_outliers_iqr. py_step. by rewrite Hn. Qed.

Lemma detect_outliers_iqr_not_numeric (w : world) (l : loc) (d : DataFrame cell)
    (name : string) (col : Series cell) :
  w_heap w !! l = Some d → lookup_column name (df_columns d) = Some col →
  numeric (s_dtype col) = false →
  detect_outliers_iqr (Some l) name w =
    (Ok ("Outlier detection (IQR method) is only applicable to numerical columns. '"
           +:+ name +:+ "' is not numerical."), w).
Proof.
  intros Hl Hcol Hnum. unfold detect_outliers_iqr.
  py_step. rewrite (lookup_column_present _ _ _ Hcol). cbn [negb].
  py_step. by rewrite Hnum.
Qed.

(** What the outlier helper does depends on the frame's content only: the
    result, the objects it creates and the library calls it makes are the
    same wherever the frame lives and whatever else the world holds. *)
Lemma detect_outliers_iqr_effect (d : DataFrame cell) (name : string) :
  frame_effect d (λ l, detect_outliers_iqr (Some l) name).
Proof.
  unfold frame_effect.
  destruct (in_columns name d) eqn:Hin.
  2: { eexists _, [], []. split; [by repeat constructor|].
       intros w l Hl. rewrite extend_nil.
       by eapply detect_outliers_iqr_missing. }
  apply bool_decide_eq_true, present_lookup_column in Hin as [col Hcol].
  destruct (numeric (s_dtype col)) eqn:Hnum.
  2: { eexists _, [], []. split; [by repeat constructor|].
       intros w l Hl. rewrite extend_nil.
       by eapply detect_outliers_iqr_not_numeric. }
  pose proof (lookup_column_present _ _ _ Hcol) as Hin.
  destruct (quantile col lit_0_25) as [Q1|e1] eqn:HQ1.
  2: { eexists _, [], [call_quantile col lit_0_25].
       split; [by repeat constructor|]. intros w l Hl. unfold detect_outliers_iqr.
       py_step. rewrite Hin. cbn [negb]. py_step. rewrite Hnum. py_step.
       erewrite bind_raise by (rewrite series_quantile_run, HQ1; reflexivity).
       reflexivity. }
  destruct (quantile col lit_0_75) as [Q3|e3] eqn:HQ3.
  2: { eexists _, [], [call_quantile col lit_0_25; call_quantile col lit_0_75].
       split; [by repeat constructor|]. intros w l Hl. unfold detect_outliers_iqr.
       py_step. rewrite Hin. cbn [negb]. py_step. rewrite Hnum. py_step.
       erewrite bind_ok by (rewrite series_quantile_run, HQ1; reflexivity).
       py_step.
       erewrite bind_raise by (rewrite series_quantile_run, HQ3; reflexivity).
       by rewrite extend_extend. }
  set (lower_bound := sub Q1 (mul lit_1_5 (sub Q3 Q1))).
  set (upper_bound := add Q3 (mul lit_1_5 (sub Q3 Q1))).
  set (outliers := select_rows d (mask_or (series_lt col lower_bound)
                                          (series_gt col upper_bound))).
  assert (Hrun : ∀ (w : world) (l : loc), w_heap w !! l = Some d →
    detect_outliers_iqr (Some l) name w =
      (if negb (empty outliers) : bool
       then sh ← df_shape (length (w_heap w));
            let '(rows, _) := sh in
            mret (" number of outliers detected in column '" +:+ name
                    +:+ "' (IQR method):
" +:+ str_int rows)
       else mret ("No outliers detected in column '" +:+ name +:+ "' (IQR method)."))
      (extend w [outliers] [] [call_quantile col lit_0_25; call_quantile col lit_0_75])).
  { intros w l Hl. unfold detect_outliers_iqr.
    py_step. rewrite Hin. cbn [negb]. py_step. rewrite Hnum. py_step.
    erewrite bind_ok by (rewrite series_quantile_run, HQ1; reflexivity).
    py_step.
    erewrite bind_ok by (rewrite series_quantile_run, HQ3; reflexivity).
    cbv zeta.
    erewrite bind_ok by (py_step; apply ret_run).
    erewrite bind_ok by (py_step; apply ret_run).
    py_step. py_step. fold lower_bound upper_bound outliers.
    rewrite !extend_extend. cbn [app length Nat.add].
    rewrite extend_heap_nil. reflexivity. }
  destruct (empty outliers) eqn:He; cbn [negb] in Hrun.
  - eexists _, [_], [call_quantile col lit_0_25; call_quantile col lit_0_75].
    split; [by repeat constructor|]. intros w l Hl. by rewrite (Hrun w l Hl).
  - eexists _, [_], [call_quantile col lit_0_25; call_quantile col lit_0_75].
    split; [by repeat constructor|]. intros w l Hl. rewrite (Hrun w l Hl).
    py_step. reflexivity.
Qed.

(** A call whose outcome on a frame [d] is fixed by [d] is pure. *)
Lemma effect_pure (h : loc → Py string) (d : DataFrame cell) (w : world) (l : loc) :
  frame_effect d h → w_heap w !! l = Some d → pure_call (h l) w.
Proof.
  intros (r & objs & called & _ & Hrun) Hl. unfold pure_call.
  rewrite (Hrun w l Hl). cbn [fst snd]. split.
  - intros l' d'. apply extend_lookup.
  - by rewrite (Hrun _ l (extend_lookup _ _ _ _ _ _ Hl)).
Qed.

Lemma raise_pure (h : Py string) (w : world) (r : result string) :
  h w = (r, w) → pure_call h w.
Proof. intros H. unfold pure_call. rewrite H. cbn. by rewrite H. Qed.

Lemma get_dataframe_shape_effect (d : DataFrame cell) :
  frame_effect d (λ l, get_dataframe_shape (Some l)).
Proof.
  unfold frame_effect.
  eexists _, [], []. split; [by repeat constructor|]. intros w l Hl. rewrite extend_nil.
  by eapply get_dataframe_shape_run.
Qed.

Lemma get_column_statistics_effect (d : DataFrame cell) (name : string) :
  frame_effect d (λ l, get_column_statistics (Some l) name).
Proof.
  unfold frame_effect.
  destruct (in_columns name d) eqn:Hin.
  - apply bool_decide_eq_true, present_lookup_column in Hin as [col Hcol].
    eexists _, [], []. split; [by repeat constructor|]. intros w l Hl. rewrite extend_nil.
    by eapply get_column_statistics_run.
  - eexists _, [], []. split; [by repeat constructor|]. intros w l Hl. rewrite extend_nil.
    by eapply get_column_statistics_missing.
Qed.

Lemma helpers_dangling (w : world) (l : loc) (name : string) :
  w_heap w !! l = None →
  ∃ e, get_dataframe_shape (Some l) w = (Raise e, w)
       ∧ get_column_statistics (Some l) name w = (Raise e, w)
       ∧ detect_outliers_iqr (Some l) name w = (Raise e, w).
Proof.
  intros Hl. eexists. split; [|split].
  - unfold get_dataframe_shape, df_shape.
    eapply bind_raise, bind_raise. by apply deref_dangling.
  - unfold get_column_statistics, df_contains.
    eapply bind_raise, bind_raise. by apply deref_dangling.
  - unfold detect_outliers_iqr, df_contains.
    eapply bind_raise, bind_raise. by apply deref_dangling.
Qed.



(** C4. On a loaded frame and a present column, the statistics helper
    returns the string rendering of the library's [describe] of that
    column, and nothing else: the outcome is [describe] followed by
    [to_string], and the world is left as it was. *)
Theorem get_column_statistics_delegates (w : world) (l : loc) (d : DataFrame cell)
    (name : string) :
  w_heap w !! l = Some d →
  LStr name ∈ columns d →
  ∃ col : Series cell,
    lookup_column name (df_columns d) = Some col
    ∧ get_column_statistics (Some l) name w =
        (match describe col with
         | Ok stats => to_string stats
         | Raise e => Raise e
         end, w).
Proof.
  intros Hl Hin. destruct (present_lookup_column _ _ Hin) as [col Hcol].
  exists col. split; [done|]. by eapply get_column_statistics_run.
Qed.

(** C10. The guarded branches of the statistics and outlier helpers return
    their messages, raise nothing and leave the world (so also the record
    of quantile requests) untouched: [None] gives "DataFrame is not
    loaded.", an absent column gives "Column '<name>' not found in the
    DataFrame.", and the outlier helper on a column that is not numeric
    gives the "only applicable to numerical columns" message. *)
Theorem guarded_branches (w : world) (name : string) :
  get_column_statistics None name w = (Ok "DataFrame is not loaded.", w)
  ∧ detect_outliers_iqr None name w = (Ok "DataFrame is not loaded.", w)
  ∧ (∀ (l : loc) (d : DataFrame cell),
       w_heap w !! l = Some d → LStr name ∉ columns d →
       get_column_statistics (Some l) name w =
         (Ok ("Column '" +:+ name +:+ "' not found in the DataFrame."), w)
       ∧ detect_outliers_iqr (Some l) name w =
         (Ok ("Column '" +:+ name +:+ "' not found in the DataFrame."), w))
  ∧ (∀ (l : loc) (d : DataFrame cell) (col : Series cell),
       w_heap w !! l = Some d →
       lookup_column name (df_columns d) = Some col →
       numeric (s_dtype col) = false →
       detect_outliers_iqr (Some l) name w =
         (Ok ("Outlier detection (IQR method) is only applicable to numerical columns. '"
                +:+ name +:+ "' is not numerical."), w)).
Proof.
  split; [reflexivity|]. split; [reflexivity|]. split.
  - intros l d Hl Hin. apply (bool_decide_eq_false_2 _) in Hin. split.
    + by eapply get_column_statistics_missing.
    + by eapply detect_outliers_iqr_missing.
  - intros l d col Hl Hcol Hnum. by eapply detect_outliers_iqr_not_numeric.
Qed.

(** C6. The three helpers are pure with respect to the table: whatever the
    argument and the world, every frame of the heap (the argument's
    included) holds after the call what it held before, and calling the
    helper again on the same arguments gives the same outcome. *)
Theorem helpers_are_pure (w : world) (df : option loc) (name : string) :
  pure_call (get_dataframe_shape df) w
  ∧ pure_call (get_column_statistics df name) w
  ∧ pure_call (detect_outliers_iqr df name) w.
Proof.
  destruct df as [l|]; [|by repeat split; eapply raise_pure].
  destruct (w_heap w !! l) as [d|] eqn:Hl.
  - split; [|split].
    + apply (effect_pure (λ l, get_dataframe_shape (Some l)) d); [|done].
      apply get_dataframe_shape_effect.
    + apply (effect_pure (λ l, get_column_statistics (Some l) name) d); [|done].
      apply get_column_statistics_effect.
    + apply (effect_pure (λ l, detect_outliers_iqr (Some l) name) d); [|done].
      apply detect_outliers_iqr_effect.
  - destruct (helpers_dangling w l name Hl) as (e & H1 & H2 & H3).
    by repeat split; eapply raise_pure.
Qed.

End Helpers.

(** ** Loading and querying *)

Section Loading.
Context `{L : Library}.

Lemma filter_label (name : string) (cols : list (label * Series cell)) :
  filter (λ c, negb (is_label name c.1)) cols = filter (λ c, c.1 ≠ LStr name) cols.
Proof.
  apply list_filter_iff. intros [n s]. cbn.
  destruct (is_label name n) eqn:Hn; cbn.
  - apply is_label_true in Hn. naive_solver.
  - split; [|done]. intros _ Heq. apply is_label_true in Heq. congruence.
Qed.

Lemma filter_absent (name : label) (cols : list (label * Series cell)) :
  name ∉ cols.*1 → filter (λ c, c.1 ≠ name) cols = cols.
Proof.
  intros Hn. induction cols as [|[n s] cols IH]; [done|].
  cbn in Hn. apply not_elem_of_cons in Hn as [Hne Hn].
  rewrite filter_cons_True by (cbn; congruence). by rewrite IH.
Qed.

Lemma without_unnamed_columns (d : DataFrame cell) :
  LStr "Unnamed: 0" ∉ columns (without_unnamed d).
Proof.
  unfold columns, without_unnamed. cbn. intros H.
  apply list_elem_of_fmap in H as ([n s] & Hn & H). cbn in Hn. subst n.
  apply list_elem_of_filter in H as [H _]. by apply H.
Qed.

Lemma drop_column_unnamed (d : DataFrame cell) :
  in_columns "Unnamed: 0" d = true →
  drop_column d "Unnamed: 0" = Ok (without_unnamed d).
Proof. intros H. unfold drop_column. rewrite H. unfold without_unnamed. by rewrite filter_label. Qed.

Lemma without_unnamed_absent (d : DataFrame cell) :
  in_columns "Unnamed: 0" d = false → without_unnamed d = d.
Proof.
  intros H. apply bool_decide_eq_false in H. unfold without_unnamed.
  rewrite filter_absent by done. by destruct d.
Qed.

Lemma pd_read_excel_run (w : world) (f : file) (d : DataFrame cell) :
  read_excel f = Ok d →
  pd_read_excel f w = (Ok (length (w_heap w)), extend w [d] [] []).
Proof. intros H. unfold pd_read_excel. rewrite bind_run, lift_run, H. apply alloc_run. Qed.

Lemma df_drop_run (w : world) (l : loc) (d d' : DataFrame cell) (name : string) :
  w_heap w !! l = Some d → drop_column d name = Ok d' →
  df_drop l name w = (Ok (length (w_heap w)), extend w [d'] [] []).
Proof.
  intros Hl Hd. unfold df_drop. py_step. rewrite bind_run, lift_run, Hd. apply alloc_run.
Qed.

(** The three ways [load_data] ends. *)
Lemma load_data_dropping (w : world) (f : file) (d : DataFrame cell) :
  read_excel f = Ok d → in_columns "Unnamed: 0" d = true →
  load_data f w = (Ok (Some (S (length (w_heap w))), None),
                   extend w [d; without_unnamed d] [] []).
Proof.
  intros Hf Hin. unfold load_data, try_except.
  erewrite bind_ok by (by apply pd_read_excel_run). cbv beta.
  py_step. rewrite Hin.
  erewrite bind_ok.
  2: { eapply df_drop_run; [py_heap | by apply drop_column_unnamed]. }
  rewrite ret_run, extend_extend. cbn. rewrite length_app. cbn.
  by rewrite Nat.add_1_r.
Qed.

Lemma load_data_keeping (w : world) (f : file) (d : DataFrame cell) :
  read_excel f = Ok d → in_columns "Unnamed: 0" d = false →
  load_data f w = (Ok (Some (length (w_heap w)), None), extend w [d] [] []).
Proof.
  intros Hf Hin. unfold load_data, try_except.
  erewrite bind_ok by (by apply pd_read_excel_run). cbv beta.
  py_step. rewrite Hin. py_step. by rewrite ret_run.
Qed.

Lemma load_data_failing (w : world) (f : file) (e : exn) :
  read_excel f = Raise e →
  load_data f w =
    (Ok (None,
         Some (if is_FileNotFoundError e
               then "Error: The file '" +:+ file_str f +:+ "' was not found."
               else "Error loading Excel file: " +:+ exn_str e)), w).
Proof.
  intros Hf. unfold load_data, try_except, pd_read_excel.
  rewrite !bind_run, lift_run, Hf. by destruct (is_FileNotFoundError e).
Qed.

(** The frame [load_data] hands back, whichever way it went. *)
Lemma load_data_anywhere (f : file) (d : DataFrame cell) :
  read_excel f = Ok d →
  ∃ objs k, objs !! k = Some (without_unnamed d)
    ∧ ∀ w : world,
        load_data f w = (Ok (Some (length (w_heap w) + k), None), extend w objs [] []).
Proof.
  intros Hf. destruct (in_columns "Unnamed: 0" d) eqn:Hin.
  - exists [d; without_unnamed d], 1. split; [done|]. intros w.
    rewrite Nat.add_1_r. by apply load_data_dropping.
  - exists [d], 0. split; [by rewrite without_unnamed_absent|]. intros w.
    rewrite Nat.add_0_r. by apply load_data_keeping.
Qed.

(** C9. When the spreadsheet loads, the frame [load_data] returns has no
    column labelled "Unnamed: 0", and it has the row labels and, in order
    and unchanged, every other column of the frame that was read. *)
Theorem load_data_drops_unnamed (w : world) (f : file) (d : DataFrame cell) :
  read_excel f = Ok d →
  ∃ (l : loc) (d' : DataFrame cell) (w' : world),
    load_data f w = (Ok (Some l, None), w')
    ∧ w_heap w' !! l = Some d'
    ∧ (LStr "Unnamed: 0" ∉ columns d')
    ∧ df_index d' = df_index d
    ∧ df_columns d' = filter (λ c, c.1 ≠ LStr "Unnamed: 0") (df_columns d).
Proof.
  intros Hf. destruct (load_data_anywhere f d Hf) as (objs & k & Hk & Hrun).
  eexists _, (without_unnamed d), _. split; [exact (Hrun w)|].
  split; [by rewrite extend_lookup_new|].
  split; [apply without_unnamed_columns | done].
Qed.

(** What the evaluator reads when the environment is [{"df": df}]. *)
Lemma tables_singleton (h : list (DataFrame cell)) (df : option loc) :
  (λ v : option loc, l ← v; h !! l) <$> ({[ "df" := df ]} : gmap string (option loc))
  = {[ "df" := l ← df; h !! l ]}.
Proof. by rewrite map_fmap_singleton. Qed.

Lemma sqldf_run (w : world) (query : string) (env : gmap string (option loc)) :
  let tables := (λ v : option loc, l ← v; w_heap w !! l) <$> env in
  sqldf query env w =
    match sqldf_eval query tables with
    | Ok (Some d) =>
        (Ok (Some (length (w_heap w))), extend w [d] [] [call_sqldf query env tables])
    | Ok None => (Ok None, extend w [] [] [call_sqldf query env tables])
    | Raise e => (Raise e, extend w [] [] [call_sqldf query env tables])
    end.
Proof.
  intros tables. unfold sqldf.
  rewrite bind_run. unfold heap. cbv beta match zeta. fold tables.
  py_step. rewrite bind_run, lift_run.
  destruct (sqldf_eval query tables) as [[d|]|e]; [|done..].
  rewrite bind_run, alloc_run, ret_run, extend_extend. cbn [app].
  by rewrite extend_heap_nil.
Qed.

Lemma run_pandasql_query_run (w : world) (query : string) (df : option loc) :
  let env : gmap string (option loc) := {[ "df" := df ]} in
  let tables : gmap string (option (DataFrame cell)) :=
    {[ "df" := l ← df; w_heap w !! l ]} in
  run_pandasql_query query df w =
    match sqldf_eval query tables with
    | Ok (Some d) =>
        (Ok (Some (length (w_heap w)), None),
         extend w [d] [] [call_sqldf query env tables])
    | Ok None => (Ok (None, None), extend w [] [] [call_sqldf query env tables])
    | Raise e =>
        (Ok (None, Some ("Error running SQL query: " +:+ exn_str e)),
         extend w [] [] [call_sqldf query env tables])
    end.
Proof.
  intros env tables. unfold run_pandasql_query, try_except.
  rewrite bind_run, sqldf_run, tables_singleton. fold env tables.
  by destruct (sqldf_eval query tables) as [[d|]|e].
Qed.

(** C3, as the code has it.  Neither function raises: each returns a pair.
    [load_data] returns the frame and [None] when the reader succeeds, and
    [None] with the "was not found" message for [FileNotFoundError], the
    "Error loading Excel file" message with the exception text otherwise.
    [run_pandasql_query] returns [None] with the "Error running SQL query"
    message and the exception text when the evaluator raises; when it does
    not, the error is [None] and the result is what the evaluator returned:
    a frame, or [None] for a statement that yields no rows.  So never both
    components are set, exactly one is for [load_data], and both are [None]
    exactly when the evaluator returned [None]. *)
Theorem load_and_query_return_pairs (w : world) (f : file) (query : string)
    (df : option loc) :
  (∃ res err w', load_data f w = (Ok (res, err), w')
     ∧ exactly_one_None (res, err)
     ∧ match read_excel f with
       | Ok d => ∃ l d', res = Some l ∧ w_heap w' !! l = Some d' ∧ err = None
       | Raise e =>
           res = None
           ∧ err = Some (if is_FileNotFoundError e
                         then "Error: The file '" +:+ file_str f +:+ "' was not found."
                         else "Error loading Excel file: " +:+ exn_str e)
       end)
  ∧ (∃ res err w', run_pandasql_query query df w = (Ok (res, err), w')
     ∧ ¬ (res ≠ None ∧ err ≠ None)
     ∧ match sqldf_eval query {[ "df" := l ← df; w_heap w !! l ]} with
       | Ok (Some d) => ∃ l, res = Some l ∧ w_heap w' !! l = Some d ∧ err = None
       | Ok None => res = None ∧ err = None
       | Raise e => res = None ∧ err = Some ("Error running SQL query: " +:+ exn_str e)
       end).
Proof.
  split.
  - destruct (read_excel f) as [d|e] eqn:Hf.
    + destruct (load_data_anywhere f d Hf) as (objs & k & Hk & Hrun).
      eexists _, _, _. split; [exact (Hrun w)|]. split; [right; by cbn|].
      eexists _, _. split; [done|]. split; [|done]. by rewrite extend_lookup_new.
    + eexists _, _, _. split; [by apply load_data_failing|].
      split; [left; by cbn | done].
  - rewrite run_pandasql_query_run.
    destruct (sqldf_eval query _) as [[d|]|e].
    + eexists _, _, _. split; [done|]. split; [intros [_ H]; by apply H|].
      eexists. split; [done|]. split; [apply extend_lookup_first | done].
    + eexists _, _, _. split; [done|]. split; [intros [_ H]; by apply H | done].
    + eexists _, _, _. split; [done|]. split; [intros [H _]; by apply H | done].
Qed.

End Loading.

(** ** The request handler of [app.py] *)

Section Handler.
Context `{L : Library}.

Lemma run_pandasql_query_on (w : world) (query : string) (l : loc) :
  let env : gmap string (option loc) := {[ "df" := Some l ]} in
  let tables : gmap string (option (DataFrame cell)) := {[ "df" := w_heap w !! l ]} in
  run_pandasql_query query (Some l) w =
    match sqldf_eval query tables with
    | Ok (Some d) =>
        (Ok (Some (length (w_heap w)), None),
         extend w [d] [] [call_sqldf query env tables])
    | Ok None => (Ok (None, None), extend w [] [] [call_sqldf query env tables])
    | Raise e =>
        (Ok (None, Some ("Error running SQL query: " +:+ exn_str e)),
         extend w [] [] [call_sqldf query env tables])
    end.
Proof. exact (run_pandasql_query_run w query (Some l)). Qed.

Lemma dispatch_run (w : world) (text : string) (l : loc) :
  let env : gmap string (option loc) := {[ "df" := Some l ]} in
  let tables : gmap string (option (DataFrame cell)) := {[ "df" := w_heap w !! l ]} in
  let announced :=
    [st_info "Generated SQL Query:"; st_code text "sql";
     st_spinner "🚀 Running SQL query and fetching results..."] in
  dispatch text l w =
    match spec_classify text with
    | FixedHelperResponse => (Ok tt, extend w [] [st_warning ("⚠️ " +:+ text)] [])
    | StructuredQuery =>
        match sqldf_eval text tables with
        | Ok (Some d) =>
            (Ok tt, extend w [d] (announced ++ [st_success "✅ Done!"; st_dataframe d])
                      [call_sqldf text env tables])
        | Ok None => (Ok tt, extend w [] announced [call_sqldf text env tables])
        | Raise e =>
            (Ok tt, extend w []
                      (announced ++ [st_error ("❌ " +:+ "Error running SQL query: "
                                                 +:+ exn_str e)])
                      [call_sqldf text env tables])
        end
    | FreeText => (Ok tt, extend w [] [st_write text] [])
    end.
Proof.
  intros env tables announced. unfold dispatch, spec_classify.
  destruct (String.eqb_spec text "Please specify a column to detect outliers in.") as [H1|H1].
  { rewrite bool_decide_eq_true_2 by by left. apply st_run. }
  destruct (String.eqb_spec text
    "Cannot process numerical statistics for categorical columns. Please specify a numerical column.")
    as [H2|H2].
  { rewrite bool_decide_eq_true_2 by by right. apply st_run. }
  rewrite bool_decide_eq_false_2 by (by intros [|]).
  destruct (startswith (upper text) sql_keywords); [|apply st_run].
  cbv zeta. do 3 py_step. rewrite !extend_extend. cbn [app].
  rewrite bind_run, run_pandasql_query_on, extend_heap_nil.
  fold env tables.
  destruct (sqldf_eval text tables) as [[d|]|e].
  - cbn [truthy]. py_step.
    erewrite bind_ok by (eapply deref_run; rewrite !extend_extend; apply extend_lookup_first).
    rewrite st_run, !extend_extend. reflexivity.
  - cbn [truthy]. by rewrite ret_run, !extend_extend.
  - replace (truthy (Some ("Error running SQL query: " +:+ exn_str e))) with true by done.
    by rewrite st_run, !extend_extend.
Qed.

(** C2. The handler sorts every final response text into exactly one of
    three kinds and acts on the kind.  A fixed sentence is shown as a
    warning, and no library call is made.  Otherwise a text whose
    upper-case form starts with SELECT, PRAGMA, CREATE, INSERT, UPDATE,
    DELETE, DROP or ALTER is announced, sent unchanged to the SQL evaluator
    as the one library call, and the evaluator's frame or error is shown.
    Otherwise the text is written verbatim, and no library call is made. *)
Theorem dispatch_by_kind (w : world) (text : string) (l : loc) :
  let env : gmap string (option loc) := {[ "df" := Some l ]} in
  let tables : gmap string (option (DataFrame cell)) := {[ "df" := w_heap w !! l ]} in
  let announced :=
    [st_info "Generated SQL Query:"; st_code text "sql";
     st_spinner "🚀 Running SQL query and fetching results..."] in
  dispatch text l w =
    match spec_classify text with
    | FixedHelperResponse => (Ok tt, extend w [] [st_warning ("⚠️ " +:+ text)] [])
    | StructuredQuery =>
        match sqldf_eval text tables with
        | Ok (Some d) =>
            (Ok tt, extend w [d] (announced ++ [st_success "✅ Done!"; st_dataframe d])
                      [call_sqldf text env tables])
        | Ok None => (Ok tt, extend w [] announced [call_sqldf text env tables])
        | Raise e =>
            (Ok tt, extend w []
                      (announced ++ [st_error ("❌ " +:+ "Error running SQL query: "
                                                 +:+ exn_str e)])
                      [call_sqldf text env tables])
        end
    | FreeText => (Ok tt, extend w [] [st_write text] [])
    end.
Proof. apply dispatch_run. Qed.

Lemma frame_effect_ext {A} (d : DataFrame cell) (h h' : loc → Py A) :
  (∀ l w, h l w = h' l w) → frame_effect d h' → frame_effect d h.
Proof.
  intros Heq (r & objs & called & HF & Hrun). exists r, objs, called.
  split; [done|]. intros w l Hl. rewrite Heq. by apply Hrun.
Qed.

Lemma frame_effect_ret {A} (d : DataFrame cell) (a : A) :
  frame_effect d (λ _, mret a).
Proof.
  exists (Ok a), [], []. split; [constructor|]. intros w l _. by rewrite extend_nil.
Qed.

Lemma frame_effect_lift {A} (d : DataFrame cell) (r : result A) :
  frame_effect d (λ _, lift r).
Proof.
  exists r, [], []. split; [constructor|]. intros w l _. by rewrite extend_nil.
Qed.

Lemma frame_effect_bind {A B} (d : DataFrame cell) (m : loc → Py A) (f : A → loc → Py B) :
  frame_effect d m → (∀ a, frame_effect d (f a)) →
  frame_effect d (λ l, a ← m l; f a l).
Proof.
  intros (r & objs & called & HF & Hrun) Hf. destruct r as [a|e].
  - destruct (Hf a) as (r2 & objs2 & called2 & HF2 & Hrun2).
    exists r2, (objs ++ objs2)%list, (called ++ called2)%list. split; [by apply Forall_app|].
    intros w l Hl. erewrite bind_ok by (by apply Hrun).
    rewrite (Hrun2 _ l) by (by apply extend_lookup).
    by rewrite extend_extend.
  - exists (Raise e), objs, called. split; [done|].
    intros w l Hl. by erewrite bind_raise by (by apply Hrun).
Qed.

Lemma run_agent_effect (d : DataFrame cell) (a : agent_step) :
  frame_effect d (λ l, run_agent (python_tools l) a).
Proof.
  induction a as [r | name input k IH | e];
    [apply frame_effect_ret | | apply frame_effect_lift].
  destruct (String.eqb "get_dataframe_shape" name) eqn:E1.
  { eapply frame_effect_ext;
      [|apply (frame_effect_bind d (λ l, get_dataframe_shape (Some l))
                 (λ obs l, run_agent (python_tools l) (k obs)));
        [apply get_dataframe_shape_effect | apply IH]].
    intros l w. cbn [run_agent]. unfold find_tool, python_tools. cbn [find tool_name].
    by rewrite E1. }
  destruct (String.eqb "get_column_statistics" name) eqn:E2.
  { eapply frame_effect_ext;
      [|apply (frame_effect_bind d (λ l, get_column_statistics (Some l) input)
                 (λ obs l, run_agent (python_tools l) (k obs)));
        [apply get_column_statistics_effect | apply IH]].
    intros l w. cbn [run_agent]. unfold find_tool, python_tools. cbn [find tool_name].
    by rewrite E1, E2. }
  destruct (String.eqb "detect_outliers_iqr" name) eqn:E3.
  { eapply frame_effect_ext;
      [|apply (frame_effect_bind d (λ l, detect_outliers_iqr (Some l) input)
                 (λ obs l, run_agent (python_tools l) (k obs)));
        [apply detect_outliers_iqr_effect | apply IH]].
    intros l w. cbn [run_agent]. unfold find_tool, python_tools. cbn [find tool_name].
    by rewrite E1, E2, E3. }
  eapply frame_effect_ext;
    [|apply (IH (invalid_tool name
                   ["get_dataframe_shape"; "get_column_statistics"; "detect_outliers_iqr"]))].
  intros l w. cbn [run_agent]. unfold find_tool, python_tools. cbn [find tool_name].
  by rewrite E1, E2, E3.
Qed.

Implicit Types (req : request) (d : DataFrame cell).

Lemma page_effect_ext {A} req d (h h' : loc → Py A) :
  (∀ l w, h l w = h' l w) → page_effect req d h' → page_effect req d h.
Proof.
  intros Heq (r & objs & shown & Hrun). exists r, objs, shown.
  intros w l Hl. rewrite Heq. by apply Hrun.
Qed.

Lemma page_effect_frame {A} req d (h : loc → Py A) :
  frame_effect d h → page_effect req d h.
Proof.
  intros (r & objs & called & HF & Hrun). exists r, objs, [].
  intros w l Hl. exists called. split; [by apply Hrun|].
  eapply Forall_impl; [exact HF|]. by intros [].
Qed.

Lemma page_effect_st req d (c : st_call) : page_effect req d (λ _, st c).
Proof.
  exists (Ok tt), [], [c]. intros w l _. exists []. split; [apply st_run | constructor].
Qed.

Lemma page_effect_ret {A} req d (a : A) : page_effect req d (λ _, mret a).
Proof. apply page_effect_frame, frame_effect_ret. Qed.

Lemma page_effect_bind {A B} req d (m : loc → Py A) (f : A → loc → Py B) :
  page_effect req d m → (∀ a, page_effect req d (f a)) →
  page_effect req d (λ l, a ← m l; f a l).
Proof.
  intros (r & objs & shown & Hrun) Hf. destruct r as [a|e].
  - destruct (Hf a) as (r2 & objs2 & shown2 & Hrun2).
    exists r2, (objs ++ objs2)%list, (shown ++ shown2)%list. intros w l Hl.
    destruct (Hrun w l Hl) as (called & Hm & HF).
    destruct (Hrun2 (extend w objs shown called) l) as (called2 & Hf2 & HF2);
      [by apply extend_lookup|].
    exists (called ++ called2)%list. split; [|by apply Forall_app].
    erewrite bind_ok by exact Hm. by rewrite Hf2, extend_extend.
  - exists (Raise e), objs, shown. intros w l Hl.
    destruct (Hrun w l Hl) as (called & Hm & HF). exists called. split; [|done].
    by erewrite bind_raise by exact Hm.
Qed.

Lemma page_effect_invoke req d (system : string) :
  page_effect req d
    (λ l, agent_executor_invoke system (python_tools l) (user_question req) []).
Proof.
  unfold agent_executor_invoke.
  apply (page_effect_bind req d (λ _, ext (call_agent_invoke (user_question req) []))
           (λ _ l, run_agent (python_tools l) (llm system [] (user_question req)))).
  - exists (Ok tt), [], []. intros w l _. eexists. split; [apply ext_run|].
    by repeat constructor.
  - intros _. apply page_effect_frame, run_agent_effect.
Qed.

Lemma page_effect_dispatch req d (text : string) :
  page_effect req d (dispatch text).
Proof.
  unfold page_effect.
  destruct (spec_classify text) eqn:Hk.
  - eexists _, _, _. intros w l Hl. exists []. rewrite dispatch_run, Hk.
    split; [reflexivity | constructor].
  - destruct (sqldf_eval text {[ "df" := Some d ]}) as [[d'|]|e] eqn:He.
    all: eexists _, _, _; intros w l Hl; eexists; rewrite dispatch_run, Hk, Hl, He.
    all: split; [reflexivity | by repeat constructor].
  - eexists _, _, _. intros w l Hl. exists []. rewrite dispatch_run, Hk.
    split; [reflexivity | constructor].
Qed.

Lemma frame_effect_columns d : frame_effect d df_columns_list.
Proof.
  exists (Ok (columns d)), [], []. split; [constructor|]. intros w l Hl.
  unfold df_columns_list. py_step. by rewrite extend_nil.
Qed.

Lemma page_effect_answer req d : page_effect req d (answer req).
Proof.
  unfold answer.
  apply (page_effect_bind req d (λ _, st _) (λ _ l, _)); [apply page_effect_st|].
  intros _. destruct (button_clicked req); [|apply page_effect_ret].
  destruct (negb _); [|apply page_effect_st].
  destruct (negb _); [apply page_effect_st|].
  apply (page_effect_bind req d (λ _, st _) (λ _ l, _)); [apply page_effect_st|].
  intros _.
  apply (page_effect_bind req d (λ _, lift _) (λ _ l, _));
    [apply page_effect_frame, frame_effect_lift|].
  intros _.
  apply (page_effect_bind req d df_columns_list (λ names l, _));
    [apply page_effect_frame, frame_effect_columns|].
  intros names.
  apply (page_effect_bind req d (λ _, lift _) (λ columns_str l, _));
    [apply page_effect_frame, frame_effect_lift|].
  intros columns_str.
  apply (page_effect_bind req d (λ _, lift _) (λ _ l, _));
    [apply page_effect_frame, frame_effect_lift|].
  intros _.
  apply (page_effect_bind req d
           (λ l, agent_executor_invoke _ (python_tools l) (user_question req) [])
           (λ response l, _)); [apply page_effect_invoke|].
  intros response.
  apply (page_effect_bind req d (λ _, st _) (λ _ l, _)); [apply page_effect_st|].
  intros _. apply page_effect_dispatch.
Qed.

Lemma df_head_run (w : world) (l : loc) d :
  w_heap w !! l = Some d →
  df_head l w = (Ok (length (w_heap w)), extend w [head d] [] []).
Proof. intros Hl. unfold df_head. py_step. apply alloc_run. Qed.

Lemma df_columns_list_run (w : world) (l : loc) d :
  w_heap w !! l = Some d → df_columns_list l w = (Ok (columns d), w).
Proof. intros Hl. unfold df_columns_list. py_step. reflexivity. Qed.

Lemma truthy_load_error (f : file) (e : exn) :
  truthy (Some (if is_FileNotFoundError e
                then "Error: The file '" +:+ file_str f +:+ "' was not found."
                else "Error loading Excel file: " +:+ exn_str e)) = true.
Proof. by destruct (is_FileNotFoundError e). Qed.

Lemma main_effect req :
  ∃ r objs shown, ∀ w : world, ∃ called,
    main req w = (r, extend w objs shown called)
    ∧ (called = []
       ∨ ∃ (f : file) d (l : loc),
           uploaded_file req = Some f
           ∧ read_excel f = Ok d
           ∧ w_heap (extend w objs shown called) !! l = Some (without_unnamed d)
           ∧ Forall (permitted_call req l (without_unnamed d)) called).
Proof.
  unfold main. destruct (uploaded_file req) as [f|] eqn:Hup.
  2: { eexists _, _, _. intros w. exists []. split; [|by left].
       do 4 py_step. rewrite bind_run, ret_run. cbv beta match. cbn [truthy].
       rewrite st_run, !extend_extend. reflexivity. }
  destruct (read_excel f) as [d|e] eqn:Hf.
  2: { eexists _, _, _. intros w. exists []. split; [|by left].
       do 4 py_step.
       erewrite bind_ok by (py_step; by apply load_data_failing).
       cbv beta match. rewrite truthy_load_error.
       rewrite st_run, !extend_extend. reflexivity. }
  destruct (load_data_anywhere f d Hf) as (loaded & k & Hk & Hload).
  destruct (page_effect_answer req (without_unnamed d)) as (r & objs & shown & Hanswer).
  eexists _, _, _. intros w.
  do 4 py_step.
  erewrite bind_ok by (py_step; apply Hload).
  cbv beta match. cbn [truthy].
  match goal with |- context [extend ?W loaded [] []] =>
    set (l := length (w_heap W) + k);
    assert (Hl : w_heap (extend W loaded [] []) !! l = Some (without_unnamed d))
      by (subst l; by rewrite extend_lookup_new)
  end.
  do 2 py_step.
  erewrite bind_ok by (eapply df_head_run; py_heap).
  do 3 py_step.
  erewrite bind_ok by (eapply df_columns_list_run; py_heap).
  do 4 py_step.
  match goal with |- context [answer req l ?W] =>
    assert (HlW : w_heap W !! l = Some (without_unnamed d)) by py_heap;
    destruct (Hanswer W l HlW) as (called & Hrun & HF);
    apply (extend_lookup _ objs shown called) in HlW
  end.
  exists called. rewrite Hrun. rewrite !extend_extend in HlW |- *.
  cbn [app] in HlW |- *. split; [reflexivity|].
  right. by exists f, d, l.
Qed.

(** C7. Every query the handler has evaluated during a run was evaluated in
    an environment with the single table name "df", bound to the frame
    object that [load_data] returned for the uploaded file; the contents
    the evaluator could read were that one frame (the frame read from the
    file, without its "Unnamed: 0" columns) and nothing else. *)
Theorem queries_see_only_df (req : request) (w : world) (query : string)
    (env : gmap string (option loc)) (tables : gmap string (option (DataFrame cell))) :
  call_sqldf query env tables ∈ drop (length (w_calls w)) (w_calls (main req w).2) →
  ∃ (f : file) (d : DataFrame cell) (l : loc),
    uploaded_file req = Some f
    ∧ read_excel f = Ok d
    ∧ w_heap (main req w).2 !! l = Some (without_unnamed d)
    ∧ env = {[ "df" := Some l ]}
    ∧ dom env = {[ "df" ]}
    ∧ tables = {[ "df" := Some (without_unnamed d) ]}.
Proof.
  destruct (main_effect req) as (r & objs & shown & Hmain).
  destruct (Hmain w) as (called & Hrun & Hcalled). rewrite Hrun. cbn [snd].
  replace (drop _ _) with called by (cbn; by rewrite drop_app_length).
  intros Hin. destruct Hcalled as [->|(f & d & l & Hup & Hf & Hl & HF)].
  { by apply elem_of_nil in Hin. }
  rewrite Forall_forall in HF. destruct (HF _ Hin) as [-> ->].
  exists f, d, l. by rewrite dom_singleton_L.
Qed.

(** C8. Nothing of a session reaches a request.  From any two worlds
    (whatever was allocated, shown, called or stored in the session state
    before), the same request has the same outcome, creates the same
    objects and makes the same Streamlit calls; the session state is left
    as it was; and every agent run is started on the question with an
    empty chat history. *)
Theorem requests_are_independent (req : request) (w1 w2 : world) :
  ∃ r objs shown called1 called2,
    main req w1 = (r, extend w1 objs shown called1)
    ∧ main req w2 = (r, extend w2 objs shown called2)
    ∧ w_session (main req w1).2 = w_session w1
    ∧ w_session (main req w2).2 = w_session w2
    ∧ Forall (λ c, match c with
                   | call_agent_invoke input chat_history =>
                       input = user_question req ∧ chat_history = []
                   | _ => True
                   end) (called1 ++ called2).
Proof.
  destruct (main_effect req) as (r & objs & shown & Hmain).
  destruct (Hmain w1) as (called1 & Hrun1 & Hcalled1).
  destruct (Hmain w2) as (called2 & Hrun2 & Hcalled2).
  exists r, objs, shown, called1, called2. rewrite Hrun1, Hrun2.
  do 4 (split; [done|]).
  apply Forall_app. split.
  - destruct Hcalled1 as [->|(f & d & l & _ & _ & _ & HF)]; [constructor|].
    eapply Forall_impl; [exact HF|]. by intros [].
  - destruct Hcalled2 as [->|(f & d & l & _ & _ & _ & HF)]; [constructor|].
    eapply Forall_impl; [exact HF|]. by intros [].
Qed.

End Handler.

(** ** Further properties of the page *)

Section Page.
Context `{L : Library}.
Implicit Types (req : request) (d : DataFrame cell) (w : world) (l : loc).

Lemma answer_idle req l w :
  button_clicked req = false →
  answer req l w = (Ok tt, extend w [] [st_button "🔍 Get Answer"] []).
Proof. intros Hb. unfold answer. py_step. by rewrite Hb, ret_run. Qed.

Lemma answer_no_question req l w :
  button_clicked req = true → user_question req = "" →
  answer req l w =
    (Ok tt, extend w [] [st_button "🔍 Get Answer";
                         st_warning "⚠️ Please enter a question."] []).
Proof.
  intros Hb Hq. unfold answer. py_step. rewrite Hb, Hq. cbn [String.eqb negb].
  by rewrite st_run, extend_extend.
Qed.

Lemma answer_no_key req l w :
  button_clicked req = true → user_question req ≠ "" →
  truthy (environ req !! "OPENAI_API_KEY") = false →
  answer req l w =
    (Ok tt, extend w []
       [st_button "🔍 Get Answer";
        st_warning
          "⚠️ Please set your OpenAI API key in the `.env` file or as an environment variable."]
       []).
Proof.
  intros Hb Hq Hk. unfold answer. py_step. rewrite Hb, Hk.
  apply String.eqb_neq in Hq. rewrite Hq. cbn [negb].
  by rewrite st_run, extend_extend.
Qed.

Lemma answer_answering req l w d :
  w_heap w !! l = Some d →
  button_clicked req = true → user_question req ≠ "" →
  truthy (environ req !! "OPENAI_API_KEY") = true →
  answer req l w =
    let base :=
      extend w [] [st_button "🔍 Get Answer"; st_spinner "🧠 Generating response..."] [] in
    match prepare d with
    | Raise e => (Raise e, base)
    | Ok system =>
        match run_agent (python_tools l) (plan req system)
                (extend base [] [] [call_agent_invoke (user_question req) []]) with
        | (Ok response, w') =>
            dispatch (final_content response) l
              (extend w' [] [st_markdown "### ✨ Analysis Result"] [])
        | (Raise e, w') => (Raise e, w')
        end
    end.
Proof.
  intros Hl Hb Hq Hk. unfold answer. py_step. rewrite Hb, Hk.
  apply String.eqb_neq in Hq. rewrite Hq. cbn [negb].
  py_step. rewrite extend_extend. cbn [app]. cbv zeta. unfold prepare.
  rewrite bind_run, lift_run. destruct chat_openai as [[]|e]; [|done].
  erewrite bind_ok by (eapply df_columns_list_run; py_heap).
  rewrite bind_run, lift_run.
  destruct (join_labels ", " (columns d)) as [columns_str|e]; [|done].
  rewrite bind_run, lift_run.
  destruct (make_agent (system_prompt columns_str)) as [[]|e]; [|done].
  unfold agent_executor_invoke.
  rewrite bind_run. erewrite bind_ok by apply ext_run.
  fold (plan req (system_prompt columns_str)).
  destruct (run_agent _ _ _) as [[response|e] w']; [|done].
  py_step. reflexivity.
Qed.

(** After a successful load, [main] is the overview followed by [answer]
    on the loaded frame. *)
Lemma main_loaded req (f : file) d :
  uploaded_file req = Some f → read_excel f = Ok d →
  ∃ loaded k,
    loaded !! k = Some (without_unnamed d)
    ∧ ∀ w, main req w =
        answer req (length (w_heap w) + k)
          (extend w (loaded ++ [head (without_unnamed d)])
             (page_header ++ overview (without_unnamed d)) []).
Proof.
  intros Hup Hf. destruct (load_data_anywhere f d Hf) as (loaded & k & Hk & Hload).
  exists loaded, k. split; [done|]. intros w. unfold main. rewrite Hup.
  do 4 py_step.
  erewrite bind_ok by (py_step; apply Hload).
  cbv beta match. cbn [truthy].
  match goal with |- context [extend ?W loaded [] []] =>
    set (l := length (w_heap W) + k);
    assert (Hl : w_heap (extend W loaded [] []) !! l = Some (without_unnamed d))
      by (subst l; by rewrite extend_lookup_new)
  end.
  do 2 py_step.
  erewrite bind_ok by (eapply df_head_run; py_heap).
  do 3 py_step.
  erewrite bind_ok by (eapply df_columns_list_run; py_heap).
  do 4 py_step.
  subst l. rewrite !extend_extend. cbn [app]. rewrite extend_heap_nil. reflexivity.
Qed.

(** X1. Without an uploaded file [main] shows the header and the invitation
    to upload, creates no object, makes no library call and returns. *)
Theorem main_without_upload req w :
  uploaded_file req = None →
  main req w =
    (Ok tt, extend w []
       (page_header ++ [st_info "⬆️ Please upload an Excel file to get started."]) []).
Proof.
  intros Hup. unfold main. rewrite Hup. do 4 py_step.
  rewrite bind_run, ret_run. cbv beta match. cbn [truthy].
  by rewrite st_run, !extend_extend.
Qed.

(** X2. When the reader raises, [main] does not: it shows the header, the
    spinner and one error box with the message of [load_data], creates no
    object and makes no library call; nothing of the question area is
    shown. *)
Theorem main_load_failure req w (f : file) (e : exn) :
  uploaded_file req = Some f → read_excel f = Raise e →
  main req w =
    (Ok tt, extend w []
       (page_header ++ [st_spinner "⏳ Connecting to database...";
                        st_error ("❌ " +:+ load_error f e)]) []).
Proof.
  intros Hup Hf. unfold main. rewrite Hup. do 4 py_step.
  erewrite bind_ok by (py_step; by apply load_data_failing).
  cbv beta match. rewrite truthy_load_error.
  by rewrite st_run, !extend_extend.
Qed.

(** X3. With a loaded file and the button not pressed, [main] shows the
    overview of the loaded frame (its first five rows at most, its column
    names without "Unnamed: 0") and the button, makes no library call and
    returns. *)
Theorem main_idle req w (f : file) d :
  uploaded_file req = Some f → read_excel f = Ok d →
  button_clicked req = false →
  ∃ objs,
    main req w =
      (Ok tt, extend w objs
         (page_header ++ overview (without_unnamed d) ++ [st_button "🔍 Get Answer"]) [])
    ∧ df_index (head (without_unnamed d)) = take 5 (df_index d)
    ∧ (LStr "Unnamed: 0" ∉ columns (without_unnamed d)).
Proof.
  intros Hup Hf Hb. destruct (main_loaded req f d Hup Hf) as (loaded & k & _ & Hmain).
  eexists. split; [|split; [done | apply without_unnamed_columns]].
  rewrite Hmain, answer_idle, extend_extend by done.
  by rewrite app_nil_r, <- app_assoc.
Qed.

(** X4. With a loaded file and the button pressed, an empty question or an
    API key that is unset or empty ends the run with one warning after the
    overview and no library call; the question is tested first. *)
Theorem main_refuses req w (f : file) d :
  uploaded_file req = Some f → read_excel f = Ok d →
  button_clicked req = true →
  user_question req = "" ∨ truthy (environ req !! "OPENAI_API_KEY") = false →
  ∃ objs,
    main req w =
      (Ok tt, extend w objs
         (page_header ++ overview (without_unnamed d)
            ++ [st_button "🔍 Get Answer";
                st_warning
                  (if String.eqb (user_question req) ""
                   then "⚠️ Please enter a question."
                   else "⚠️ Please set your OpenAI API key in the `.env` file or as an environment variable.")])
         []).
Proof.
  intros Hup Hf Hb Hno. destruct (main_loaded req f d Hup Hf) as (loaded & k & _ & Hmain).
  eexists. rewrite Hmain.
  destruct (String.eqb_spec (user_question req) "") as [Hq|Hq].
  - rewrite answer_no_question, extend_extend by done.
    by rewrite app_nil_r, <- app_assoc.
  - destruct Hno as [|Hk]; [done|].
    rewrite answer_no_key, extend_extend by done.
    by rewrite app_nil_r, <- app_assoc.
Qed.

(** X5. On a request that passes the tests of lines 59-82, [main] is: the
    overview, the button and the spinner; then lines 86-179 on the loaded
    frame (the chat model, the join of the column labels, the agent), where
    the first exception, such as the [TypeError] of [join] on a label that
    is not a [str], ends [main] before any agent run; then one agent run on
    the question with the tools bound to the loaded frame, whose exception
    ends [main] at once; then the result header and [dispatch] on the
    response text. *)
Theorem main_answering req w (f : file) d :
  uploaded_file req = Some f → read_excel f = Ok d →
  button_clicked req = true → user_question req ≠ "" →
  truthy (environ req !! "OPENAI_API_KEY") = true →
  ∃ objs l,
    let loaded := without_unnamed d in
    let base :=
      extend w objs
        (page_header ++ overview loaded
           ++ [st_button "🔍 Get Answer"; st_spinner "🧠 Generating response..."])
        [] in
    w_heap base !! l = Some loaded
    ∧ main req w =
        match prepare loaded with
        | Raise e => (Raise e, base)
        | Ok system =>
            match run_agent (python_tools l) (plan req system)
                    (extend base [] [] [call_agent_invoke (user_question req) []]) with
            | (Ok response, w') =>
                dispatch (final_content response) l
                  (extend w' [] [st_markdown "### ✨ Analysis Result"] [])
            | (Raise e, w') => (Raise e, w')
            end
        end.
Proof.
  intros Hup Hf Hb Hq Hk.
  destruct (main_loaded req f d Hup Hf) as (loaded & k & Hlk & Hmain).
  exists (loaded ++ [head (without_unnamed d)])%list, (length (w_heap w) + k).
  cbv zeta.
  assert (Hl : ∀ u c, w_heap (extend w (loaded ++ [head (without_unnamed d)]) u c)
                        !! (length (w_heap w) + k) = Some (without_unnamed d)).
  { intros u c. rewrite extend_lookup_new. by apply lookup_app_l_Some. }
  split; [apply Hl|].
  rewrite Hmain, (answer_answering req _ _ (without_unnamed d)) by (done || apply Hl).
  cbv zeta.
  replace (extend (extend w (loaded ++ [head (without_unnamed d)])
                     (page_header ++ overview (without_unnamed d)) [])
             [] [st_button "🔍 Get Answer"; st_spinner "🧠 Generating response..."] [])
    with (extend w (loaded ++ [head (without_unnamed d)])
            (page_header ++ overview (without_unnamed d)
               ++ [st_button "🔍 Get Answer"; st_spinner "🧠 Generating response..."]) [])
    by (by rewrite extend_extend, !app_nil_r, <- app_assoc).
  reflexivity.
Qed.

Lemma answering_spec req :
  answering req = true ↔
  ∃ (f : file) d,
    uploaded_file req = Some f ∧ read_excel f = Ok d
    ∧ button_clicked req = true ∧ user_question req ≠ ""
    ∧ truthy (environ req !! "OPENAI_API_KEY") = true.
Proof.
  unfold answering. split.
  - destruct (uploaded_file req) as [f|]; [|done].
    destruct (read_excel f) as [d|e] eqn:Hf; [|done].
    intros H. apply andb_true_iff in H as [H Hk]. apply andb_true_iff in H as [Hb Hq].
    exists f, d. repeat split; try done.
    apply negb_true_iff in Hq. by apply String.eqb_neq.
  - intros (f & d & -> & -> & -> & Hq & ->).
    apply String.eqb_neq in Hq. by rewrite Hq.
Qed.



Lemma reaches_agent_spec req :
  reaches_agent req = true ↔
  ∃ (f : file) d system,
    uploaded_file req = Some f ∧ read_excel f = Ok d
    ∧ button_clicked req = true ∧ user_question req ≠ ""
    ∧ truthy (environ req !! "OPENAI_API_KEY") = true
    ∧ prepare (without_unnamed d) = Ok system.
Proof.
  unfold reaches_agent. split.
  - intros H. apply andb_true_iff in H as [Ha H].
    apply answering_spec in Ha as (f & d & Hup & Hf & Hb & Hq & Hk).
    rewrite Hup, Hf in H.
    destruct (prepare (without_unnamed d)) as [system|e] eqn:Hp; [|done].
    by exists f, d, system.
  - intros (f & d & system & Hup & Hf & Hb & Hq & Hk & Hp).
    apply andb_true_iff. split.
    + apply answering_spec. by exists f, d.
    + by rewrite Hup, Hf, Hp.
Qed.



Lemma str_items_raises (i : nat) (labels : list label) (type_name repr : string) :
  LObj type_name repr ∈ labels →
  ∃ msg, str_items i labels = Raise (Exn (OtherException "TypeError") msg).
Proof.
  revert i. induction labels as [|lab labels IH]; intros i Hin.
  { by apply elem_of_nil in Hin. }
  destruct lab as [s|ty r]; cbn; [|eauto].
  apply elem_of_cons in Hin as [|Hin]; [done|].
  destruct (IH (S i) Hin) as [msg ->]. eauto.
Qed.

(** X15. A header cell that is not text stops the answer.  When the
    spreadsheet has a column whose label is not a [str] (a number or a
    date in the header row) and the request passes the tests of lines
    59-82, [main] raises the [TypeError] of [join] at line 87, provided
    the chat model was built: the overview, the button and the spinner
    have been shown, and no agent run and no other library call is
    made. *)
Theorem main_join_failure req w (f : file) d (type_name repr : string) :
  uploaded_file req = Some f → read_excel f = Ok d →
  button_clicked req = true → user_question req ≠ "" →
  truthy (environ req !! "OPENAI_API_KEY") = true →
  chat_openai = Ok tt →
  LObj type_name repr ∈ columns d →
  ∃ objs msg,
    main req w =
      (Raise (Exn (OtherException "TypeError") msg),
       extend w objs
         (page_header ++ overview (without_unnamed d)
            ++ [st_button "🔍 Get Answer"; st_spinner "🧠 Generating response..."])
         []).
Proof.
  intros Hup Hf Hb Hq Hk Hchat Hin.
  destruct (main_loaded req f d Hup Hf) as (loaded & k & Hlk & Hmain).
  assert (Hin' : LObj type_name repr ∈ columns (without_unnamed d)).
  { unfold columns in *. cbn. apply list_elem_of_fmap in Hin as ([n c] & Hn & Hin).
    cbn in Hn. subst n. apply list_elem_of_fmap. exists (LObj type_name repr, c).
    split; [done|]. apply list_elem_of_filter. by split. }
  destruct (str_items_raises 0 _ _ _ Hin') as [msg Hmsg].
  exists (loaded ++ [head (without_unnamed d)])%list, msg.
  assert (Hl : ∀ u c, w_heap (extend w (loaded ++ [head (without_unnamed d)]) u c)
                        !! (length (w_heap w) + k) = Some (without_unnamed d)).
  { intros u c. rewrite extend_lookup_new. by apply lookup_app_l_Some. }
  rewrite Hmain, (answer_answering req _ _ (without_unnamed d)) by (done || apply Hl).
  cbv zeta. unfold prepare, join_labels. rewrite Hchat, Hmsg.
  by rewrite extend_extend, !app_nil_r, <- app_assoc.
Qed.

End Page.

(** ** Further properties of [utils.py] *)

Section Tables.
Context `{L : Library}.
Implicit Types (d : DataFrame cell) (w : world) (l : loc).

(** The numeric branch of the outlier helper, once both quantiles are
    there: the selection is allocated and the message is read off it. *)
Lemma detect_outliers_iqr_select w l d (name : string) (col : Series cell)
    (Q1 Q3 : scalar) :
  w_heap w !! l = Some d →
  lookup_column name (df_columns d) = Some col →
  numeric (s_dtype col) = true →
  quantile col lit_0_25 = Ok Q1 →
  quantile col lit_0_75 = Ok Q3 →
  let lower_bound := sub Q1 (mul lit_1_5 (sub Q3 Q1)) in
  let upper_bound := add Q3 (mul lit_1_5 (sub Q3 Q1)) in
  let flagged := λ v, cell_lt v lower_bound || cell_gt v upper_bound in
  let outliers := select_rows d (map flagged (s_values col)) in
  detect_outliers_iqr (Some l) name w =
    (Ok (if empty outliers
         then "No outliers detected in column '" +:+ name +:+ "' (IQR method)."
         else " number of outliers detected in column '" +:+ name
                +:+ "' (IQR method):
" +:+ str_int (length (df_index outliers))),
     extend w [outliers] [] [call_quantile col lit_0_25; call_quantile col lit_0_75]).
Proof.
  intros Hl Hcol Hnum HQ1 HQ3 lower_bound upper_bound flagged outliers.
  unfold detect_outliers_iqr.
  py_step. rewrite (lookup_column_present _ _ _ Hcol). cbn [negb].
  py_step. rewrite Hnum. py_step.
  erewrite bind_ok by (rewrite series_quantile_run, HQ1; reflexivity).
  py_step.
  erewrite bind_ok by (rewrite series_quantile_run, HQ3; reflexivity).
  cbv zeta.
  erewrite bind_ok by (py_step; apply ret_run).
  erewrite bind_ok by (py_step; apply ret_run).
  unfold series_lt, series_gt. rewrite mask_or_map.
  fold lower_bound upper_bound. fold flagged. fold outliers.
  py_step. fold outliers. py_step.
  destruct (empty outliers); cbn [negb].
  - by rewrite !extend_extend.
  - py_step. unfold shape. by rewrite !extend_extend.
Qed.

Lemma select_map_filter {A} (p : A → bool) (xs : list A) :
  select (map p xs) xs = List.filter p xs.
Proof. induction xs as [|x xs IH]; [done|]. cbn. destruct (p x); by rewrite IH. Qed.

Lemma length_select_le {A} (mask : list bool) (xs : list A) :
  length (select mask xs) ≤ length xs.
Proof.
  revert xs. induction mask as [|b mask IH]; intros [|x xs]; cbn; try lia.
  specialize (IH xs). destruct b; cbn; lia.
Qed.

Lemma length_select_same {A B} (mask : list bool) (xs : list A) (ys : list B) :
  length xs = length ys → length (select mask xs) = length (select mask ys).
Proof.
  revert xs ys. induction mask as [|b mask IH]; intros [|x xs] [|y ys] Hlen;
    cbn in *; try done.
  destruct b; cbn; auto.
Qed.

Lemma select_rows_well_formed d (mask : list bool) :
  well_formed d → well_formed (select_rows d mask).
Proof.
  unfold well_formed. cbn. intros Hwf. apply Forall_map. cbn.
  eapply Forall_impl; [exact Hwf|]. intros [n s] Hlen. cbn in *.
  by apply length_select_same.
Qed.

Lemma select_rows_columns d (mask : list bool) :
  columns (select_rows d mask) = columns d.
Proof. unfold columns. cbn. rewrite <- list_fmap_compose. by apply list_fmap_ext. Qed.

Lemma lookup_column_select (name : string) (cols : list (label * Series cell))
    (mask : list bool) :
  lookup_column name
    (map (λ c, (c.1, mkSeries (s_dtype c.2) (select mask (s_values c.2)))) cols)
  = (λ s, mkSeries (s_dtype s) (select mask (s_values s))) <$> lookup_column name cols.
Proof.
  induction cols as [|[n s] cols IH]; [done|]. cbn.
  by destruct (is_label name n).
Qed.

(** X8. A quantile that raises is not caught by the outlier helper: the
    helper raises the same exception and allocates nothing; its only
    library calls are the quantile requests made so far, and after a
    failure of the first quantile the second is never asked for. *)
Theorem detect_outliers_iqr_quantile_failure w l d (name : string)
    (col : Series cell) (e : exn) :
  w_heap w !! l = Some d →
  lookup_column name (df_columns d) = Some col →
  numeric (s_dtype col) = true →
  quantile col lit_0_25 = Raise e
  ∨ (∃ Q1, quantile col lit_0_25 = Ok Q1 ∧ quantile col lit_0_75 = Raise e) →
  ∃ called,
    detect_outliers_iqr (Some l) name w = (Raise e, extend w [] [] called)
    ∧ Forall quantile_call called
    ∧ (quantile col lit_0_25 = Raise e → called = [call_quantile col lit_0_25]).
Proof.
  intros Hl Hcol Hnum Hfail. pose proof (lookup_column_present _ _ _ Hcol) as Hin.
  destruct Hfail as [HQ1|(Q1 & HQ1 & HQ3)].
  - exists [call_quantile col lit_0_25]. split; [|split; [by repeat constructor | done]].
    unfold detect_outliers_iqr.
    py_step. rewrite Hin. cbn [negb]. py_step. rewrite Hnum. py_step.
    by erewrite bind_raise by (rewrite series_quantile_run, HQ1; reflexivity).
  - exists [call_quantile col lit_0_25; call_quantile col lit_0_75].
    split; [|split; [by repeat constructor | congruence]].
    unfold detect_outliers_iqr.
    py_step. rewrite Hin. cbn [negb]. py_step. rewrite Hnum. py_step.
    erewrite bind_ok by (rewrite series_quantile_run, HQ1; reflexivity).
    py_step.
    erewrite bind_raise by (rewrite series_quantile_run, HQ3; reflexivity).
    by rewrite extend_extend.
Qed.

(** X11. The frame of outliers the helper builds (line 48) is a frame of
    the same shape as the table: it is well formed, has the table's column
    labels in order, at most as many rows, and its named column holds, with
    the dtype kept, exactly the flagged values in their order. *)
Theorem detect_outliers_iqr_selection w l d (name : string) (col : Series cell)
    (Q1 Q3 : scalar) :
  w_heap w !! l = Some d →
  well_formed d →
  lookup_column name (df_columns d) = Some col →
  numeric (s_dtype col) = true →
  quantile col lit_0_25 = Ok Q1 →
  quantile col lit_0_75 = Ok Q3 →
  let lower_bound := sub Q1 (mul lit_1_5 (sub Q3 Q1)) in
  let upper_bound := add Q3 (mul lit_1_5 (sub Q3 Q1)) in
  let flagged := λ v, cell_lt v lower_bound || cell_gt v upper_bound in
  ∃ outliers : DataFrame cell,
    w_heap (detect_outliers_iqr (Some l) name w).2 = (w_heap w ++ [outliers])%list
    ∧ well_formed outliers
    ∧ columns outliers = columns d
    ∧ length (df_index outliers) ≤ length (df_index d)
    ∧ lookup_column name (df_columns outliers)
      = Some (mkSeries (s_dtype col) (List.filter flagged (s_values col))).
Proof.
  intros Hl Hwf Hcol Hnum HQ1 HQ3 lower_bound upper_bound flagged.
  exists (select_rows d (map flagged (s_values col))).
  rewrite (detect_outliers_iqr_select w l d name col Q1 Q3) by done.
  split; [done|]. split; [by apply select_rows_well_formed|].
  split; [apply select_rows_columns|]. split; [apply length_select_le|].
  cbn [select_rows df_columns]. rewrite lookup_column_select, Hcol. cbn.
  by rewrite select_map_filter.
Qed.

(** X14. A numeric column without values has no outliers: whatever the two
    quantiles come out as, the helper answers "No outliers detected". *)
Theorem detect_outliers_iqr_no_values w l d (name : string) (col : Series cell)
    (Q1 Q3 : scalar) :
  w_heap w !! l = Some d →
  lookup_column name (df_columns d) = Some col →
  numeric (s_dtype col) = true →
  s_values col = [] →
  quantile col lit_0_25 = Ok Q1 →
  quantile col lit_0_75 = Ok Q3 →
  (detect_outliers_iqr (Some l) name w).1
  = Ok ("No outliers detected in column '" +:+ name +:+ "' (IQR method).").
Proof.
  intros Hl Hcol Hnum Hnil HQ1 HQ3.
  rewrite (detect_outliers_iqr_select w l d name col Q1 Q3) by done.
  rewrite Hnil. cbn [map fst]. unfold empty, select_rows. cbn [df_index select length].
  reflexivity.
Qed.

Lemma lookup_column_filter (name other : string) (cols : list (label * Series cell)) :
  name ≠ other →
  lookup_column name (filter (λ c, c.1 ≠ LStr other) cols) = lookup_column name cols.
Proof.
  intros Hne. induction cols as [|[n s] cols IH]; [done|].
  destruct (decide (n = LStr other)) as [->|Hn].
  - rewrite filter_cons_False by (cbn; tauto). cbn.
    destruct (String.eqb_spec other name); [congruence | done].
  - rewrite filter_cons_True by done. cbn. by rewrite IH.
Qed.

Lemma without_unnamed_well_formed d : well_formed d → well_formed (without_unnamed d).
Proof.
  unfold well_formed, without_unnamed. cbn. intros Hwf.
  apply Forall_forall. intros c Hc. apply list_elem_of_filter in Hc as [_ Hc].
  rewrite Forall_forall in Hwf. by apply Hwf.
Qed.

Lemma length_filter_label (name : label) (cols : list (label * Series cell)) :
  NoDup cols.*1 →
  length (filter (λ c, c.1 ≠ name) cols)
  = length cols - (if bool_decide (name ∈ cols.*1) then 1 else 0).
Proof.
  induction cols as [|[n s] cols IH]; [done|]. cbn [fmap list_fmap fst].
  intros Hnd. apply NoDup_cons in Hnd as [Hn Hnd]. specialize (IH Hnd).
  destruct (decide (n = name)) as [->|Hne].
  - rewrite filter_cons_False by (cbn; tauto).
    rewrite bool_decide_eq_true_2 by left.
    rewrite IH, bool_decide_eq_false_2 by done. cbn. lia.
  - rewrite filter_cons_True by done. cbn [length]. rewrite IH.
    destruct (bool_decide (name ∈ cols.*1)) eqn:Hin.
    + apply bool_decide_eq_true in Hin.
      rewrite bool_decide_eq_true_2 by (by right).
      destruct cols; [by apply elem_of_nil in Hin | cbn; lia].
    + apply bool_decide_eq_false in Hin.
      rewrite bool_decide_eq_false_2; [lia|].
      intros [?|?]%elem_of_cons; congruence.
Qed.

(** X9. Loading keeps the table intact: the frame [load_data] returns is
    well formed when the frame read is, and every column with a label
    other than "Unnamed: 0" is found under its label with the content it
    had in the frame read. *)
Theorem load_data_keeps_columns w (f : file) d :
  read_excel f = Ok d →
  well_formed d →
  ∃ l d' w',
    load_data f w = (Ok (Some l, None), w')
    ∧ w_heap w' !! l = Some d'
    ∧ well_formed d'
    ∧ ∀ name, name ≠ "Unnamed: 0" →
        lookup_column name (df_columns d') = lookup_column name (df_columns d).
Proof.
  intros Hf Hwf. destruct (load_data_anywhere f d Hf) as (objs & k & Hk & Hrun).
  eexists _, (without_unnamed d), _. split; [exact (Hrun w)|].
  split; [by rewrite extend_lookup_new|].
  split; [by apply without_unnamed_well_formed|].
  intros name Hne. by apply lookup_column_filter.
Qed.

(** X10. Loading, then asking for the shape: for a spreadsheet read as R
    rows and C columns with distinct labels, the shape helper on the loaded
    frame reports R rows, and C - 1 columns when one of them was labelled
    "Unnamed: 0", C columns otherwise. *)
Theorem load_data_then_shape w (f : file) d :
  read_excel f = Ok d →
  NoDup (columns d) →
  ((loaded ← load_data f; get_dataframe_shape loaded.1) w).1
  = Ok ("The DataFrame has " +:+ str_int (length (df_index d)) +:+ " rows and "
          +:+ str_int (length (df_columns d)
                       - (if in_columns "Unnamed: 0" d then 1 else 0))
          +:+ " columns.").
Proof.
  intros Hf Hnd. destruct (load_data_anywhere f d Hf) as (objs & k & Hk & Hrun).
  erewrite bind_ok by apply Hrun. cbn [fst].
  erewrite get_dataframe_shape_run by (by rewrite extend_lookup_new).
  cbn [fst without_unnamed df_index df_columns].
  by rewrite length_filter_label.
Qed.

(** X12. After loading, the column "Unnamed: 0" does not exist for the
    helpers: on the loaded frame both the statistics helper and the outlier
    helper answer that the column was not found, whatever the spreadsheet
    held under that label. *)
Theorem load_data_hides_unnamed w (f : file) d :
  read_excel f = Ok d →
  ((loaded ← load_data f; get_column_statistics loaded.1 "Unnamed: 0") w).1
  = Ok "Column 'Unnamed: 0' not found in the DataFrame."
  ∧ ((loaded ← load_data f; detect_outliers_iqr loaded.1 "Unnamed: 0") w).1
    = Ok "Column 'Unnamed: 0' not found in the DataFrame.".
Proof.
  intros Hf. destruct (load_data_anywhere f d Hf) as (objs & k & Hk & Hrun).
  assert (Hno : in_columns "Unnamed: 0" (without_unnamed d) = false)
    by apply (bool_decide_eq_false_2 _), without_unnamed_columns.
  split.
  - erewrite bind_ok by apply Hrun. cbn [fst].
    by erewrite get_column_statistics_missing by (done || by rewrite extend_lookup_new).
  - erewrite bind_ok by apply Hrun. cbn [fst].
    by erewrite detect_outliers_iqr_missing by (done || by rewrite extend_lookup_new).
Qed.

(** X13. The query test looks at a prefix only.  A text that is not one of
    the two fixed sentences and whose upper-case form starts with one of
    the eight keywords is sent to the evaluator as it is, whatever follows
    the keyword (a word such as "Updated" included); exactly one query is
    evaluated, in the environment of the loaded frame. *)
Theorem dispatch_prefix_only w (text keyword : string) l :
  keyword ∈ sql_keywords →
  String.prefix keyword (upper text) = true →
  text ≠ "Please specify a column to detect outliers in." →
  text ≠ "Cannot process numerical statistics for categorical columns. Please specify a numerical column." →
  ∃ objs shown,
    dispatch text l w =
      (Ok tt, extend w objs shown
                [call_sqldf text {[ "df" := Some l ]} {[ "df" := w_heap w !! l ]}]).
Proof.
  intros Hkw Hpre H1 H2.
  assert (Hk : spec_classify text = StructuredQuery).
  { unfold spec_classify. rewrite bool_decide_eq_false_2 by (by intros [|]).
    replace (startswith (upper text) sql_keywords) with true; [done|].
    symmetry. apply existsb_exists. exists keyword. split; [|done].
    by apply list_elem_of_In. }
  rewrite dispatch_run, Hk.
  destruct (sqldf_eval text _) as [[d'|]|e]; by eexists _, _.
Qed.

End Tables.

(** * Runs on concrete inputs *)



Lemma get_column_statistics_delegates_witness :
  ∃ col : Series Toy.value,
    lookup_column "price" (df_columns Toy.steady) = Some col
    ∧ get_column_statistics (Some 0) "price" Toy.with_steady
      = (Ok "count    4", Toy.with_steady).
Proof.
  destruct (get_column_statistics_delegates Toy.with_steady 0 Toy.steady "price")
    as (col & Hcol & Hrun).
  - reflexivity.
  - apply list_elem_of_here.
  - exists col. split; [exact Hcol|].
    injection Hcol as <-. exact Hrun.
Defined.

Lemma guarded_branches_witness :
  get_column_statistics None "colour" Toy.with_sales
    = (Ok "DataFrame is not loaded.", Toy.with_sales)
  ∧ detect_outliers_iqr None "colour" Toy.with_sales
    = (Ok "DataFrame is not loaded.", Toy.with_sales)
  ∧ get_column_statistics (Some 0) "colour" Toy.with_sales
    = (Ok "Column 'colour' not found in the DataFrame.", Toy.with_sales)
  ∧ detect_outliers_iqr (Some 0) "colour" Toy.with_sales
    = (Ok "Column 'colour' not found in the DataFrame.", Toy.with_sales)
  ∧ detect_outliers_iqr (Some 0) "city" Toy.with_sales
    = (Ok "Outlier detection (IQR method) is only applicable to numerical columns. 'city' is not numerical.",
       Toy.with_sales).
Proof.
  destruct (guarded_branches Toy.with_sales "colour") as (H1 & H2 & H3 & _).
  destruct (guarded_branches Toy.with_sales "city") as (_ & _ & _ & H4).
  destruct (H3 0 Toy.sales) as [H3a H3b].
  - reflexivity.
  - apply (bool_decide_unpack _). vm_compute. exact I.
  - split; [exact H1|]. split; [exact H2|]. split; [exact H3a|]. split; [exact H3b|].
    eapply (H4 0 Toy.sales); reflexivity.
Defined.

Lemma load_data_drops_unnamed_witness :
  ∃ (l : loc) (d' : DataFrame Toy.value) (w' : world),
    load_data "sales.xlsx" Toy.fresh = (Ok (Some l, None), w')
    ∧ w_heap w' !! l = Some d'
    ∧ (LStr "Unnamed: 0" ∉ columns d')
    ∧ df_index d' = [0; 1; 2; 3; 4; 5]
    ∧ df_columns d' = filter (λ c, c.1 ≠ LStr "Unnamed: 0") (df_columns Toy.sales).
Proof.
  apply (load_data_drops_unnamed Toy.fresh "sales.xlsx" Toy.sales). reflexivity.
Defined.

Lemma queries_see_only_df_witness :
  ∃ (f : string) (d : DataFrame Toy.value) (l : loc),
    uploaded_file (Toy.ask "Show everything") = Some f
    ∧ read_excel f = Ok d
    ∧ w_heap (main (Toy.ask "Show everything") Toy.fresh).2 !! l = Some (without_unnamed d)
    ∧ ({[ "df" := Some 1 ]} : gmap string (option loc)) = {[ "df" := Some l ]}
    ∧ dom ({[ "df" := Some 1 ]} : gmap string (option loc)) = {[ "df" ]}
    ∧ ({[ "df" := Some (without_unnamed (L:=Toy.lib) Toy.sales) ]}
         : gmap string (option (DataFrame Toy.value)))
      = {[ "df" := Some (without_unnamed d) ]}.
Proof.
  apply (queries_see_only_df (Toy.ask "Show everything") Toy.fresh "SELECT * FROM df"
           {[ "df" := Some 1 ]} {[ "df" := Some (without_unnamed (L:=Toy.lib) Toy.sales) ]}).
  assert (Hcalls : drop (length (w_calls Toy.fresh))
                     (w_calls (main (Toy.ask "Show everything") Toy.fresh).2)
                   = [call_agent_invoke "Show everything" [];
                      call_sqldf "SELECT * FROM df" {[ "df" := Some 1 ]}
                        {[ "df" := Some (without_unnamed (L:=Toy.lib) Toy.sales) ]}])
    by reflexivity.
  rewrite Hcalls. apply list_elem_of_further, list_elem_of_here.
Defined.

(** C3, as the claim words it, fails: a statement that yields no rows makes
    the evaluator return [None], and [run_pandasql_query] then returns
    [(None, None)], a pair with both components [None]. *)
Lemma run_pandasql_query_both_None :
  ¬ ∃ res err w',
      run_pandasql_query "CREATE TABLE t (a INTEGER)" (Some 0) Toy.with_steady
        = (Ok (res, err), w')
      ∧ exactly_one_None (res, err).
Proof.
  intros (res & err & w' & Hrun & Hone).
  rewrite run_pandasql_query_run in Hrun. cbn in Hrun.
  injection Hrun as <- <- _.
  destruct Hone as [[_ H]|[H _]]; by apply H.
Qed.

(** The three kinds, on the scripted page. *)
Example classify_fixed :
  spec_classify (L:=Toy.lib) "Please specify a column to detect outliers in."
  = FixedHelperResponse.
Proof. reflexivity. Qed.

Example classify_query : spec_classify (L:=Toy.lib) "delete from df" = StructuredQuery.
Proof. reflexivity. Qed.

Example classify_free :
  spec_classify (L:=Toy.lib) "The DataFrame has 6 rows and 2 columns." = FreeText.
Proof. reflexivity. Qed.

(** A statement without rows is evaluated and nothing more is shown. *)
Example dispatch_statement_without_rows :
  dispatch "delete from df" 0 Toy.with_steady
  = (Ok tt,
     extend Toy.with_steady []
       [st_info "Generated SQL Query:"; st_code "delete from df" "sql";
        st_spinner "🚀 Running SQL query and fetching results..."]
       [call_sqldf "delete from df" {[ "df" := Some 0 ]} {[ "df" := Some Toy.steady ]}]).
Proof. reflexivity. Qed.

(** The outlier question, asked on a fresh page and on a page with a past:
    the same answer is written. *)
Example outlier_answer_fresh :
  last (w_ui (main (Toy.ask "Are there outliers in price?") Toy.fresh).2)
  = Some (st_write " number of outliers detected in column 'price' (IQR method):
1").
Proof. reflexivity. Qed.

Example outlier_answer_busy :
  last (w_ui (main (Toy.ask "Are there outliers in price?") Toy.busy).2)
  = Some (st_write " number of outliers detected in column 'price' (IQR method):
1")
  ∧ w_session (main (Toy.ask "Are there outliers in price?") Toy.busy).2
    = w_session Toy.busy.
Proof. split; reflexivity. Qed.

(** A missing file is reported, not raised. *)
Example load_data_missing_file :
  (load_data "absent.xlsx" Toy.fresh).1
  = Ok (None, Some "Error: The file 'absent.xlsx' was not found.").
Proof. reflexivity. Qed.

Lemma main_without_upload_witness :
  main Cases.no_upload Toy.fresh
  = (Ok tt, extend Toy.fresh []
              (page_header ++ [st_info "⬆️ Please upload an Excel file to get started."]) []).
Proof. apply (main_without_upload Cases.no_upload Toy.fresh). reflexivity. Defined.

Lemma main_load_failure_witness :
  main Cases.absent Toy.fresh
  = (Ok tt, extend Toy.fresh []
              (page_header ++ [st_spinner "⏳ Connecting to database...";
                               st_error "❌ Error: The file 'absent.xlsx' was not found."])
              []).
Proof.
  apply (main_load_failure Cases.absent Toy.fresh "absent.xlsx"
           (Exn FileNotFoundError "No such file or directory: absent.xlsx"));
    reflexivity.
Defined.

Lemma main_idle_witness :
  ∃ objs,
    main Cases.idle Toy.fresh
    = (Ok tt, extend Toy.fresh objs
                (page_header ++ overview (without_unnamed (L:=Toy.lib) Toy.sales)
                   ++ [st_button "🔍 Get Answer"]) [])
    ∧ df_index (head (without_unnamed (L:=Toy.lib) Toy.sales)) = [0; 1; 2; 3; 4]
    ∧ (LStr "Unnamed: 0" ∉ columns (without_unnamed (L:=Toy.lib) Toy.sales)).
Proof. apply (main_idle Cases.idle Toy.fresh "sales.xlsx" Toy.sales); reflexivity. Defined.

Lemma main_refuses_witness :
  ∃ objs,
    main Cases.silent Toy.fresh
    = (Ok tt, extend Toy.fresh objs
                (page_header ++ overview (without_unnamed (L:=Toy.lib) Toy.sales)
                   ++ [st_button "🔍 Get Answer";
                       st_warning "⚠️ Please enter a question."]) []).
Proof.
  apply (main_refuses Cases.silent Toy.fresh "sales.xlsx" Toy.sales);
    [reflexivity | reflexivity | reflexivity | left; reflexivity].
Defined.

Lemma main_answering_witness :
  ∃ objs l,
    let loaded := without_unnamed (L:=Toy.lib) Toy.sales in
    let base :=
      extend Toy.fresh objs
        (page_header ++ overview loaded
           ++ [st_button "🔍 Get Answer"; st_spinner "🧠 Generating response..."])
        [] in
    w_heap base !! l = Some loaded
    ∧ main (Toy.ask "Show everything") Toy.fresh =
        match prepare loaded with
        | Raise e => (Raise e, base)
        | Ok system =>
            match run_agent (python_tools l) (plan (Toy.ask "Show everything") system)
                    (extend base [] [] [call_agent_invoke "Show everything" []]) with
            | (Ok response, w') =>
                dispatch (final_content response) l
                  (extend w' [] [st_markdown "### ✨ Analysis Result"] [])
            | (Raise e, w') => (Raise e, w')
            end
        end.
Proof.
  apply (main_answering (Toy.ask "Show everything") Toy.fresh "sales.xlsx" Toy.sales);
    [reflexivity | reflexivity | reflexivity | discriminate | reflexivity].
Defined.


Lemma detect_outliers_iqr_quantile_failure_witness :
  let price := mkSeries float64 [Toy.VNum 10; Toy.VNum 12; Toy.VNum 11; Toy.VNum 13;
                                 Toy.VNum 100; Toy.VNum 12] in
  ∃ called,
    detect_outliers_iqr (Some 0) "price" Flaky.with_sales
    = (Raise (Toy.type_error "cannot compute the quantile"),
       extend Flaky.with_sales [] [] called)
    ∧ Forall quantile_call called
    ∧ (quantile (Library:=Flaky.lib) price (Some (1 # 4)%Q)
         = Raise (Toy.type_error "cannot compute the quantile")
       → called = [call_quantile (L:=Flaky.lib) price (Some (1 # 4)%Q)]).
Proof.
  intros price.
  apply (detect_outliers_iqr_quantile_failure Flaky.with_sales 0 Toy.sales "price" price
           (Toy.type_error "cannot compute the quantile"));
    [reflexivity | reflexivity | reflexivity | left; reflexivity].
Defined.

Lemma load_data_keeps_columns_witness :
  ∃ (l : loc) (d' : DataFrame Toy.value) (w' : world),
    load_data "sales.xlsx" Toy.fresh = (Ok (Some l, None), w')
    ∧ w_heap w' !! l = Some d'
    ∧ well_formed d'
    ∧ ∀ name, name ≠ "Unnamed: 0" →
        lookup_column name (df_columns d') = lookup_column name (df_columns Toy.sales).
Proof.
  apply (load_data_keeps_columns Toy.fresh "sales.xlsx" Toy.sales);
    [reflexivity | repeat constructor].
Defined.

Lemma load_data_then_shape_witness :
  ((loaded ← load_data "sales.xlsx"; get_dataframe_shape loaded.1) Toy.fresh).1
  = Ok "The DataFrame has 6 rows and 2 columns.".
Proof.
  apply (load_data_then_shape Toy.fresh "sales.xlsx" Toy.sales); [reflexivity|].
  apply (bool_decide_unpack _). vm_compute. exact I.
Defined.

Lemma detect_outliers_iqr_selection_witness :
  ∃ outliers : DataFrame Toy.value,
    w_heap (detect_outliers_iqr (Some 0) "price" Toy.with_sales).2
    = [Toy.sales; outliers]
    ∧ well_formed outliers
    ∧ columns outliers = [LStr "Unnamed: 0"; LStr "price"; LStr "city"]
    ∧ length (df_index outliers) ≤ 6
    ∧ lookup_column "price" (df_columns outliers)
      = Some (mkSeries float64 [Toy.VNum 100]).
Proof.
  apply (detect_outliers_iqr_selection Toy.with_sales 0 Toy.sales "price"
           (mkSeries float64 [Toy.VNum 10; Toy.VNum 12; Toy.VNum 11; Toy.VNum 13;
                              Toy.VNum 100; Toy.VNum 12])
           (Some (45 # 4)%Q) (Some (51 # 4)%Q));
    [reflexivity | repeat constructor | reflexivity..].
Defined.

Lemma load_data_hides_unnamed_witness :
  ((loaded ← load_data "sales.xlsx"; get_column_statistics loaded.1 "Unnamed: 0")
     Toy.fresh).1
  = Ok "Column 'Unnamed: 0' not found in the DataFrame."
  ∧ ((loaded ← load_data "sales.xlsx"; detect_outliers_iqr loaded.1 "Unnamed: 0")
       Toy.fresh).1
    = Ok "Column 'Unnamed: 0' not found in the DataFrame.".
Proof. apply (load_data_hides_unnamed Toy.fresh "sales.xlsx" Toy.sales). reflexivity. Defined.

Lemma dispatch_prefix_only_witness :
  ∃ objs shown,
    dispatch "Updated the table" 0 Toy.with_steady
    = (Ok tt, extend Toy.with_steady objs shown
                [call_sqldf "Updated the table" {[ "df" := Some 0 ]}
                   {[ "df" := Some Toy.steady ]}]).
Proof.
  apply (dispatch_prefix_only Toy.with_steady "Updated the table" "UPDATE" 0);
    [ repeat first [apply list_elem_of_here | apply list_elem_of_further]
    | reflexivity | discriminate | discriminate ].
Defined.

Lemma detect_outliers_iqr_no_values_witness :
  (detect_outliers_iqr (Some 0) "price" Cases.with_blank).1
  = Ok "No outliers detected in column 'price' (IQR method).".
Proof.
  apply (detect_outliers_iqr_no_values Cases.with_blank 0 Cases.blank "price"
           (mkSeries float64 []) None None); reflexivity.
Defined.

Lemma main_join_failure_witness :
  ∃ objs msg,
    main (Mixed.ask "Show everything") Mixed.fresh =
      (Raise (Exn (OtherException "TypeError") msg),
       extend Mixed.fresh objs
         (page_header ++ overview (without_unnamed (L:=Mixed.lib) Mixed.years)
            ++ [st_button "🔍 Get Answer"; st_spinner "🧠 Generating response..."])
         []).
Proof.
  apply (main_join_failure (Mixed.ask "Show everything") Mixed.fresh "years.xlsx"
           Mixed.years "int" "2023");
    [ reflexivity | reflexivity | reflexivity | discriminate | reflexivity | reflexivity
    | apply list_elem_of_further, list_elem_of_here ].
Defined.

(** The message of the failure is the one of [str.join]. *)
Example main_join_failure_message :
  (main (Mixed.ask "Show everything") Mixed.fresh).1
  = Raise (Exn (OtherException "TypeError")
             "sequence item 1: expected str instance, int found").
Proof. reflexivity. Qed.

